(** * MixedContentsManager: path routing over several contents managers

    A shallow embedding of [eginotebooks/manager.py].  The router splits a
    request path, looks the mount point up in its table of managers and
    either forwards the request to that manager (rewriting the paths of the
    answer) or falls back to the inherited [LargeFileManager]. *)

From Stdlib Require Import Ascii.
From Stdlib Require String.
From stdpp Require Import base option list gmap strings.

Local Open Scope Z_scope.

(** ** Python strings *)

Module Str.

(** [c in chars] for a character and a string of candidate characters. *)
Fixpoint mem (c : ascii) (chars : string) : bool :=
  match chars with
  | EmptyString => false
  | String d rest => if Ascii.eqb c d then true else mem c rest
  end.

(** [s.lstrip(chars)] *)
Fixpoint lstrip (chars s : string) : string :=
  match s with
  | EmptyString => EmptyString
  | String c rest => if mem c chars then lstrip chars rest else s
  end.

(** [s.rstrip(chars)] *)
Fixpoint rstrip (chars s : string) : string :=
  match s with
  | EmptyString => EmptyString
  | String c rest =>
      match rstrip chars rest with
      | EmptyString => if mem c chars then EmptyString else String c EmptyString
      | kept => String c kept
      end
  end.

(** [s.strip(chars)] *)
Definition strip (chars s : string) : string := rstrip chars (lstrip chars s).

(** [s.split(sep)] for a one-character separator: never the empty list. *)
Fixpoint split (sep : ascii) (s : string) : list string :=
  match s with
  | EmptyString => [EmptyString]
  | String c rest =>
      if Ascii.eqb c sep then EmptyString :: split sep rest
      else match split sep rest with
           | [] => [String c EmptyString]
           | piece :: pieces => String c piece :: pieces
           end
  end.

(** [sep.join(pieces)] *)
Fixpoint join (sep : string) (pieces : list string) : string :=
  match pieces with
  | [] => EmptyString
  | [piece] => piece
  | piece :: more => piece +:+ sep +:+ join sep more
  end.

(** [s.startswith(p)] and [s.endswith(p)] *)
Fixpoint startswith (s p : string) {struct p} : bool :=
  match p, s with
  | EmptyString, _ => true
  | String _ _, EmptyString => false
  | String d p', String c s' => Ascii.eqb c d && startswith s' p'
  end.

Fixpoint endswith_char (s : string) (c : ascii) : bool :=
  match s with
  | EmptyString => false
  | String d EmptyString => Ascii.eqb d c
  | String _ rest => endswith_char rest c
  end.

(** [needle in hay] on two strings: substring test. *)
Fixpoint contains (needle hay : string) : bool :=
  startswith hay needle
  || match hay with
     | EmptyString => false
     | String _ rest => contains needle rest
     end.

(** The one-character strings a [for] loop over a string yields. *)
Fixpoint chars (s : string) : list string :=
  match s with
  | EmptyString => []
  | String c rest => String c EmptyString :: chars rest
  end.

(** [a < b] on strings: lexicographic on character codes. *)
Fixpoint ltb (a b : string) : bool :=
  match a, b with
  | _, EmptyString => false
  | EmptyString, String _ _ => true
  | String c a', String d b' =>
      if Ascii.eqb c d then ltb a' b'
      else (N.ltb (Ascii.N_of_ascii c) (Ascii.N_of_ascii d))
  end.

End Str.

(** The path separator. *)
Definition sep : string := "/".
Definition sep_char : ascii := "/"%char.

(** [os.path.join(a, b)] of [posixpath]: an absolute [b] replaces [a]. *)
Definition os_path_join (a b : string) : string :=
  if Str.startswith b sep then b
  else if String.eqb a "" || Str.endswith_char a sep_char then a +:+ b
  else a +:+ sep +:+ b.

(** ** Path decomposition *)

(** [list.pop(0)]: the head and the shortened list, [None] for [IndexError]. *)
Definition pop0 {A} (l : list A) : option (A * list A) :=
  match l with
  | [] => None
  | x :: rest => Some (x, rest)
  end.

(** [_split_path(path)]: the sentinel, the rest of the path as a list and the
    path stripped of [/]. *)
Definition _split_path (path : string) : option (string * list string * string) :=
  let path := Str.strip sep path in
  let list_path := Str.split sep_char path in
  match pop0 list_path with
  | None => None
  | Some (sentinel, list_path) => Some (sentinel, list_path, path)
  end.

(** ** Python values *)

(** The values notebook models are made of.  [VTime] is a [datetime], as found
    in the [last_modified] and [created] fields. *)
#[warnings="-register-all"]
Inductive value : Type :=
| VNone
| VBool (b : bool)
| VInt (n : Z)
| VStr (s : string)
| VTime (t : Z)
| VList (items : list value)
| VDict (fields : list (string * value)).

(** A [dict] with string keys, in insertion order. *)
Abbreviation dict A := (list (string * A)).
Abbreviation kwargs := (list (string * value)).

Fixpoint dict_get {A} (k : string) (d : dict A) : option A :=
  match d with
  | [] => None
  | (k', v) :: rest => if String.eqb k k' then Some v else dict_get k rest
  end.

(** [d[k] = v]: an existing key keeps its position, a new one goes last. *)
Fixpoint dict_set {A} (k : string) (v : A) (d : dict A) : dict A :=
  match d with
  | [] => [(k, v)]
  | (k', v') :: rest =>
      if String.eqb k k' then (k, v) :: rest else (k', v') :: dict_set k v rest
  end.

(** [k in d] *)
Definition dict_has {A} (k : string) (d : dict A) : bool :=
  match dict_get k d with Some _ => true | None => false end.

Inductive exn : Type :=
| ValueError (msg : string)
| TypeError
| KeyError (key : string)
| AttributeError (name : string)
| IndexError
| ImportError (name : string)
| HTTPError (status : Z).

Inductive result (A : Type) : Type :=
| Ok (a : A)
| Raise (e : exn).
Arguments Ok {A} a.
Arguments Raise {A} e.

#[global] Instance result_ret : MRet result := fun _ a => Ok a.
#[global] Instance result_bind : MBind result := fun _ _ k r =>
  match r with
  | Ok a => k a
  | Raise e => Raise e
  end.

Definition b2z (b : bool) : Z := if b then 1 else 0.

(** [bool(v)] *)
Definition truthy (v : value) : bool :=
  match v with
  | VNone => false
  | VBool b => b
  | VInt n => negb (n =? 0)
  | VStr s => negb (String.eqb s "")
  | VTime _ => true
  | VList items => match items with [] => false | _ => true end
  | VDict fields => match fields with [] => false | _ => true end
  end.

(** [a == b] *)
Fixpoint value_eqb (a b : value) {struct a} : bool :=
  match a, b with
  | VNone, VNone => true
  | VBool x, VBool y => Bool.eqb x y
  | VBool x, VInt y => b2z x =? y
  | VInt x, VBool y => x =? b2z y
  | VInt x, VInt y => x =? y
  | VStr x, VStr y => String.eqb x y
  | VTime x, VTime y => x =? y
  | VList xs, VList ys =>
      (fix all2 (xs ys : list value) {struct xs} : bool :=
         match xs, ys with
         | [], [] => true
         | x :: xs', y :: ys' => value_eqb x y && all2 xs' ys'
         | _, _ => false
         end) xs ys
  | VDict xs, VDict ys =>
      Nat.eqb (length xs) (length ys)
      && (fix all (xs : dict value) {struct xs} : bool :=
            match xs with
            | [] => true
            | (k, v) :: xs' =>
                match dict_get k ys with
                | Some w => value_eqb v w && all xs'
                | None => false
                end
            end) xs
  | _, _ => false
  end.

(** [a < b]; [None] where Python raises [TypeError]. *)
Fixpoint value_lt (a b : value) {struct a} : option bool :=
  match a, b with
  | VBool x, VBool y => Some (b2z x <? b2z y)
  | VBool x, VInt y => Some (b2z x <? y)
  | VInt x, VBool y => Some (x <? b2z y)
  | VInt x, VInt y => Some (x <? y)
  | VStr x, VStr y => Some (Str.ltb x y)
  | VTime x, VTime y => Some (x <? y)
  | VList xs, VList ys =>
      (fix lex (xs ys : list value) {struct xs} : option bool :=
         match xs, ys with
         | [], [] => Some false
         | [], _ :: _ => Some true
         | _ :: _, [] => Some false
         | x :: xs', y :: ys' => if value_eqb x y then lex xs' ys' else value_lt x y
         end) xs ys
  | _, _ => None
  end.

Definition empty_max_msg : string := "max() arg is an empty sequence".
Definition empty_min_msg : string := "min() arg is an empty sequence".

(** The scan of [max]: a later item replaces the current one when it is
    greater ([better cur item] is [item > cur], resp. [item < cur]). *)
Fixpoint scan (better : value -> value -> option bool) (cur : value) (rest : list value)
  : result value :=
  match rest with
  | [] => Ok cur
  | item :: rest' =>
      match better cur item with
      | None => Raise TypeError
      | Some true => scan better item rest'
      | Some false => scan better cur rest'
      end
  end.

(** [max(l)] and [min(l)] *)
Definition py_max (l : list value) : result value :=
  match l with
  | [] => Raise (ValueError empty_max_msg)
  | first :: rest => scan (fun cur item => value_lt cur item) first rest
  end.

Definition py_min (l : list value) : result value :=
  match l with
  | [] => Raise (ValueError empty_min_msg)
  | first :: rest => scan (fun cur item => value_lt item cur) first rest
  end.

(** [v[k]] for a string key [k]. *)
Definition getitem (v : value) (k : string) : result value :=
  match v with
  | VDict fields =>
      match dict_get k fields with
      | Some x => Ok x
      | None => Raise (KeyError k)
      end
  | _ => Raise TypeError
  end.

(** [v[k] = x] for a string key [k]. *)
Definition setitem (v : value) (k : string) (x : value) : result value :=
  match v with
  | VDict fields => Ok (VDict (dict_set k x fields))
  | _ => Raise TypeError
  end.

(** [for e in v]: the items, or [TypeError] when [v] is not iterable. *)
Definition iterate (v : value) : result (list value) :=
  match v with
  | VList items => Ok items
  | VStr s => Ok (VStr <$> Str.chars s)
  | VDict fields => Ok ((fun kv => VStr kv.1) <$> fields)
  | _ => Raise TypeError
  end.

(** ["path" in e] *)
Definition contains_key (e : value) (k : string) : result bool :=
  match e with
  | VDict fields => Ok (dict_has k fields)
  | VStr s => Ok (Str.contains k s)
  | VList items => Ok (existsb (fun x => value_eqb x (VStr k)) items)
  | _ => Raise TypeError
  end.

(** ** The router and its collaborators *)

(** A mounted contents manager: an object of class [class], with the
    attributes set on it from the mount's [config].  [oid] is the identity of
    the object, which is what [!=] compares. *)
Record backend : Type := Backend {
  oid : nat;
  class : string;
  attrs : dict value;
}.

Definition same_object (a b : option backend) : bool :=
  match a, b with
  | None, None => true
  | Some x, Some y => Nat.eqb (oid x) (oid y)
  | _, _ => false
  end.

(** The receiver of a delegated call: the inherited [LargeFileManager]
    ([super()], or an attribute of [self] the router does not define itself)
    or a mounted manager. *)
Inductive target : Type :=
| Default
| Mounted (man : backend).

(** One delegated call: the method [meth] of [receiver], looked up by name
    and applied to positional and keyword arguments. *)
Record call : Type := Call {
  receiver : target;
  meth : string;
  args : list value;
  kw : kwargs;
}.

(** An entry of [filesystem_scheme]. *)
Record MountSpec : Type := {
  root : string;
  spec_class : string;
  config : dict value;
}.

(** The router: the traits the methods read and the table of managers. *)
Record Self : Type := {
  mixed_path : string;
  managers : dict backend;
}.

(** Methods run against a log of the delegated calls made so far and either
    return or raise. *)
Definition M (A : Type) : Type := list call -> list call * result A.

#[global] Instance M_ret : MRet M := fun _ a log => (log, Ok a).
#[global] Instance M_bind : MBind M := fun _ _ k m log =>
  match m log with
  | (log', Ok a) => k a log'
  | (log', Raise e) => (log', Raise e)
  end.

Definition raise {A} (e : exn) : M A := fun log => (log, Raise e).
Definition lift {A} (r : result A) : M A := fun log => (log, r).
Definition lift_opt {A} (e : exn) (o : option A) : M A :=
  fun log => (log, match o with Some a => Ok a | None => Raise e end).

Definition cross_mount_msg : string :=
  "Does not know how to move model across mountpoints".
Definition cross_rename_msg : string :=
  "Does not know how to move things across contents manager mountpoints".
Definition duplicate_mount_msg : string :=
  "Scheme should not mount two contents manager on the same mountpoint".

(** What [_fix_paths] does to one entry of a directory listing. *)
Definition fix_entry (base_path : string) (e : value) : result value :=
  has ← contains_key e "path";
  if has : bool then
    p ← getitem e "path";
    match p with
    | VStr p => setitem e "path" (VStr (os_path_join base_path (Str.lstrip sep p)))
    | _ => Raise (AttributeError "lstrip")
    end
  else Ok e.

Fixpoint fix_entries (base_path : string) (es : list value) : result (list value) :=
  match es with
  | [] => Ok []
  | e :: rest =>
      e' ← fix_entry base_path e;
      rest' ← fix_entries base_path rest;
      Ok (e' :: rest')
  end.

(** [_fix_paths(sub, base_path)].  The entries of a list are objects changed
    in place; iterating over a string or over the keys of a dict changes
    nothing, but may raise. *)
Definition _fix_paths (sub : value) (base_path : string) : result value :=
  match sub with
  | VDict fields =>
      fields ←
        match dict_get "path" fields with
        | Some (VStr p) => Ok (dict_set "path" (VStr (os_path_join base_path p)) fields)
        | Some _ => Raise TypeError
        | None => Ok fields
        end;
      let is_dir :=
        match dict_get "type" fields with
        | Some t => value_eqb t (VStr "directory")
        | None => false
        end in
      let content := default VNone (dict_get "content" fields) in
      if is_dir && truthy content then
        es ← iterate content;
        es' ← fix_entries base_path es;
        match content with
        | VList _ => Ok (VDict (dict_set "content" (VList es') fields))
        | _ => Ok (VDict fields)
        end
      else Ok (VDict fields)
  | _ => Ok sub
  end.

(** [_get_cm(sentinel, listpath)] *)
Definition _get_cm (self : Self) (sentinel : string) (listpath : list string)
  : option backend :=
  if negb (String.eqb sentinel (mixed_path self)) || Nat.eqb (length listpath) 0
  then None
  else match listpath with
       | first :: _ => dict_get first (managers self)
       | [] => None
       end.

Section Router.

(** The collaborators: what a delegated call answers.  A method the receiver
    does not have answers with [AttributeError].  No operation calls the same
    method of the same object twice, so the answer is a function of the
    call.  The calls to [self.log.debug] are left out. *)
Variable respond : call -> result value.

Definition invoke (c : call) : M value := fun log => (log ++ [c], respond c).

(** A call inside [try: ... except: pass]: the outcome is handed back
    instead of being raised. *)
Definition try_invoke (c : call) : M (result value) :=
  fun log => (log ++ [c], Ok (respond c)).

Definition split_path (path : string) : M (string * list string * string) :=
  lift_opt IndexError (_split_path path).

(** *** The dispatch decorators

    [name] is [method.__name__], [method] the decorated function. *)

Definition path_dispatch1 (name : string)
    (method : Self -> string -> kwargs -> M value)
    (self : Self) (path : string) (kw : kwargs) : M value :=
  '(sentinel, _path, path) ← split_path path;
  match _get_cm self sentinel _path with
  | Some man =>
      first ← lift_opt IndexError (head _path);
      let base_path := os_path_join sentinel first in
      sub ← invoke (Call (Mounted man) name [VStr (Str.join sep (drop 1 _path))] kw);
      lift (_fix_paths sub base_path)
  | None => method self path kw
  end.

Definition path_dispatch2 (name : string)
    (method : Self -> value -> string -> M value)
    (self : Self) (other : value) (path : string) : M value :=
  '(sentinel, _path, path) ← split_path path;
  match _get_cm self sentinel _path with
  | Some man =>
      first ← lift_opt IndexError (head _path);
      let base_path := os_path_join sentinel first in
      sub ← invoke (Call (Mounted man) name
                      [other; VStr (Str.join sep (drop 1 _path))] []);
      lift (_fix_paths sub base_path)
  | None => method self other path
  end.

Definition path_dispatch_kwarg (name : string)
    (method : Self -> string -> M value)
    (self : Self) (path : string) : M value :=
  '(sentinel, _path, path) ← split_path path;
  match _get_cm self sentinel _path with
  | Some man =>
      first ← lift_opt IndexError (head _path);
      let base_path := os_path_join sentinel first in
      sub ← invoke (Call (Mounted man) name []
                      [("path", VStr (Str.join sep (drop 1 _path)))]);
      lift (_fix_paths sub base_path)
  | None => method self path
  end.

Definition path_dispatch_rename (name : string)
    (rename_like_method : Self -> string -> string -> M value)
    (self : Self) (old_path new_path : string) : M value :=
  '(_, _old_path, old_sentinel) ← split_path old_path;
  '(_, _new_path, new_sentinel) ← split_path new_path;
  if negb (String.eqb old_sentinel new_sentinel)
  then raise (ValueError cross_rename_msg)
  else
    let sentinel := new_sentinel in
    match dict_get sentinel (managers self) with
    | Some man =>
        sub ← invoke (Call (Mounted man) name
                        [VStr (Str.join sep _old_path); VStr (Str.join sep _new_path)] []);
        invoke (Call Default "fix_path" [VStr sentinel; sub] [])
    | None => rename_like_method self old_path new_path
    end.

(** *** The contents API *)

Definition is_root (self : Self) (path : string) : bool :=
  Nat.eqb (String.length path) 0 || String.eqb path (mixed_path self).

Definition dir_exists (self : Self) (path : string) : M value :=
  path_dispatch1 "dir_exists" (fun self path _ =>
    if is_root self path then mret (VBool true)
    else invoke (Call Default "dir_exists" [VStr (os_path_join "/" path)] []))
  self path [].

Definition is_hidden (self : Self) (path : string) : M value :=
  path_dispatch1 "is_hidden" (fun self path _ =>
    if is_root self path then mret (VBool false)
    else invoke (Call Default "is_hidden" [VStr (os_path_join "/" path)] []))
  self path [].

Definition file_exists (self : Self) (path : string) : M value :=
  path_dispatch_kwarg "file_exists" (fun self path =>
    if is_root self path then mret (VBool false)
    else invoke (Call Default "file_exists" [VStr (os_path_join "/" path)] []))
  self path.

Definition exists_ (self : Self) (path : string) : M value :=
  path_dispatch1 "exists" (fun self path _ =>
    if is_root self path then mret (VBool true)
    else invoke (Call Default "exists" [VStr (os_path_join "/" path)] []))
  self path [].

(** The [for] loop of [get] over [self.managers.items()]: [acc] is the pair
    of [root["content"]] and [lm]. *)
Definition collect_mount (self : Self) (kw : kwargs)
    (acc : list value * list value) (item : string * backend)
  : M (list value * list value) :=
  let '(content, lm) := acc in
  let '(subpath, manager) := item in
  fetched ← try_invoke (Call (Mounted manager) "get" [VStr "/"] kw);
  let entry :=
    d ← fetched;
    d ← setitem d "content" VNone;
    d ← setitem d "name" (VStr subpath);
    setitem d "path" (VStr (os_path_join (mixed_path self) subpath)) in
  mret match entry with
       | Raise _ => (content, lm)
       | Ok d =>
           match getitem d "last_modified" with
           | Ok t => (content ++ [d], lm ++ [t])
           | Raise _ => (content ++ [d], lm)
           end
       end.

Fixpoint for_each {A B} (body : B -> A -> M B) (items : list A) (acc : B) : M B :=
  match items with
  | [] => mret acc
  | item :: rest => acc ← body acc item; for_each body rest acc
  end.

Definition mount_point_entry (self : Self) : value :=
  VDict [("type", VStr "directory"); ("name", VStr (mixed_path self));
         ("path", VStr (mixed_path self))].

Definition empty_root (self : Self) : dict value :=
  dict_set "type" (VStr "directory")
    [("type", VStr "directory"); ("name", VStr (mixed_path self));
     ("path", VStr (mixed_path self)); ("content", VList []);
     ("last_modified", VNone); ("created", VNone); ("format", VStr "json");
     ("mimetype", VNone); ("size", VNone); ("writable", VBool false)].

Definition get (self : Self) (path : string) (kw : kwargs) : M value :=
  path_dispatch1 "get" (fun self path kw =>
    if Nat.eqb (String.length path) 0 then
      root ← invoke (Call Default "get" [VStr "/"] kw);
      content ← lift (getitem root "content");
      match content with
      | VList items =>
          lift (setitem root "content" (VList (items ++ [mount_point_entry self])))
      | _ => raise (AttributeError "append")
      end
    else if String.eqb path (mixed_path self) then
      '(content, lm) ← for_each (collect_mount self kw) (managers self) ([], []);
      let root := dict_set "content" (VList content) (empty_root self) in
      newest ← lift (py_max lm);
      let root := dict_set "last_modified" newest root in
      oldest ← lift (py_min lm);
      let root := dict_set "created" oldest root in
      mret (VDict root)
    else invoke (Call Default "get" [VStr (os_path_join "/" path)] kw))
  self path kw.

Definition save (self : Self) (model : value) (path : string) : M value :=
  path_dispatch2 "save" (fun self model path =>
    invoke (Call Default "save" [model; VStr path] []))
  self model path.

Definition update (self : Self) (model : value) (path : string) : M value :=
  '(sentinel, listpath, _path) ← split_path path;
  model_path ← lift (getitem model "path");
  '(m_sentinel, m_listpath, orig_path) ←
    match model_path with
    | VStr p => split_path p
    | _ => raise (AttributeError "strip")
    end;
  let man := _get_cm self sentinel listpath in
  let m_man := _get_cm self m_sentinel m_listpath in
  if negb (same_object man m_man) then raise (ValueError cross_mount_msg)
  else
    match man with
    | Some man =>
        first ← lift_opt IndexError (head listpath);
        let base_path := os_path_join sentinel first in
        model ← lift (setitem model "path" (VStr (Str.join sep (drop 1 m_listpath))));
        sub ← invoke (Call (Mounted man) "update"
                        [model; VStr (Str.join sep (drop 1 listpath))] []);
        lift (_fix_paths sub base_path)
    | None => invoke (Call Default "update" [model; VStr path] [])
    end.

Definition delete (self : Self) (path : string) : M value :=
  path_dispatch1 "delete" (fun self path _ =>
    invoke (Call Default "delete" [VStr path] []))
  self path [].

Definition create_checkpoint (self : Self) (path : string) : M value :=
  path_dispatch1 "create_checkpoint" (fun self path _ =>
    invoke (Call Default "create_checkpoint" [VStr path] []))
  self path [].

Definition list_checkpoints (self : Self) (path : string) : M value :=
  path_dispatch1 "list_checkpoints" (fun self path _ =>
    invoke (Call Default "list_checkpoints" [VStr path] []))
  self path [].

Definition restore_checkpoint (self : Self) (checkpoint_id : value) (path : string)
  : M value :=
  path_dispatch2 "restore_checkpoint" (fun self checkpoint_id path =>
    invoke (Call Default "restore_checkpoints" [VStr path] []))
  self checkpoint_id path.

Definition delete_checkpoint (self : Self) (checkpoint_id : value) (path : string)
  : M value :=
  path_dispatch2 "delete_checkpoint" (fun self checkpoint_id path =>
    invoke (Call Default "delete_checkpoints" [VStr path] []))
  self checkpoint_id path.

Definition rename_file (self : Self) (old_path new_path : string) : M value :=
  path_dispatch_rename "rename_file" (fun self old_path new_path =>
    invoke (Call Default "rename_file" [VStr old_path; VStr new_path] []))
  self old_path new_path.

Definition rename (self : Self) (old_path new_path : string) : M value :=
  path_dispatch_rename "rename" (fun self old_path new_path =>
    invoke (Call Default "rename" [VStr old_path; VStr new_path] []))
  self old_path new_path.

End Router.

(** ** Construction of the table of managers *)

Section Construction.

(** [import_item(name)] finds a class for the importable names and raises
    [ImportError] for the others. *)
Variable importable : string -> bool.

(** [setattr(man, k, v)] for every item of a mount's [config]. *)
Definition setattrs (man : backend) (config : dict value) : backend :=
  foldl (fun man kv => Backend (oid man) (class man) (dict_set kv.1 kv.2 (attrs man)))
        man config.

(** The loop of [__init__] over [filesystem_scheme].  [created] lists the
    managers instantiated so far; a new object takes the next identity.  The
    keyword arguments every constructor receives (those of the router, with
    the router as [parent]) play no part in the routing and are left out. *)
Fixpoint mount_all (scheme : list MountSpec) (managers : dict backend)
    (created : list backend) : list backend * result (dict backend) :=
  match scheme with
  | [] => (created, Ok managers)
  | spec :: rest =>
      if importable (spec_class spec) then
        let man := Backend (length created) (spec_class spec) [] in
        let man := if truthy (VDict (config spec)) then setattrs man (config spec)
                   else man in
        mount_all rest (dict_set (root spec) man managers) (created ++ [man])
      else (created, Raise (ImportError (spec_class spec)))
  end.

(** [MixedContentsManager.__init__]: the managers instantiated, and the
    router or the exception raised. *)
Definition __init__ (mixed_path : string) (filesystem_scheme : list MountSpec)
  : list backend * result Self :=
  let names : gset string := list_to_set (root <$> filesystem_scheme) in
  if negb (Nat.eqb (size names) (length filesystem_scheme))
  then ([], Raise (ValueError duplicate_mount_msg))
  else
    let '(created, managers) := mount_all filesystem_scheme [] [] in
    (created, managers ← managers;
              Ok {| mixed_path := mixed_path; managers := managers |}).

End Construction.

(** ** Vocabulary of the properties *)

(** A string made of separators only. *)
Fixpoint all_sep (s : string) : bool :=
  match s with
  | EmptyString => true
  | String c rest => Ascii.eqb c sep_char && all_sep rest
  end.

(** The manager a path is routed to: [_get_cm] on the split path, as every
    dispatch wrapper computes it. *)
Definition resolve (self : Self) (path : string) : option backend :=
  match _split_path path with
  | Some (sentinel, listpath, _) => _get_cm self sentinel listpath
  | None => None
  end.

(** A method that makes the single call [c] and returns its answer. *)
Definition forwards (respond : call -> result value) (m : M value) (c : call) : Prop :=
  forall log, m log = (log ++ [c], respond c).

(** A method that makes the single call [c] and returns its answer
    rewritten by [_fix_paths] under [base_path]. *)
Definition forwards_fixed (respond : call -> result value) (m : M value) (c : call)
    (base_path : string) : Prop :=
  forall log, m log = (log ++ [c], sub ← respond c; _fix_paths sub base_path).

(** A method that answers [v] without calling anything. *)
Definition answers (m : M value) (v : value) : Prop :=
  forall log, m log = (log, Ok v).

(** A record whose [path], when it has one, is a string. *)
Definition plain_path (d : dict value) : Prop :=
  dict_get "path" d = None \/ exists p, dict_get "path" d = Some (VStr p).

(** An entry of a listing that [_fix_paths] can rewrite. *)
Definition entry_ok (e : value) : Prop := exists d, e = VDict d /\ plain_path d.

(** What [_fix_paths] makes of an entry: the path goes under [base_path]
    without its leading separators, every other field stays. *)
Definition entry_rewritten (base_path : string) (e e' : value) : Prop :=
  exists d d',
    e = VDict d /\ e' = VDict d'
    /\ (forall k, k <> "path" -> dict_get k d' = dict_get k d)
    /\ dict_get "path" d' =
         match dict_get "path" d with
         | Some (VStr p) => Some (VStr (os_path_join base_path (Str.lstrip sep p)))
         | other => other
         end.

(** The manager [__init__] makes of the [i]-th entry of the scheme. *)
Definition instance (i : nat) (spec : MountSpec) : backend :=
  setattrs (Backend i (spec_class spec) []) (config spec).

(** The fetch of a mount's root by [get] on the bare prefix. *)
Definition fetch_call (kw : kwargs) (man : backend) : call :=
  Call (Mounted man) "get" [VStr "/"] kw.

(** The entry the listing of the bare prefix gets for a mount: none unless the
    fetch answers a record. *)
Definition listed (respond : call -> result value) (self : Self) (kw : kwargs)
    (item : string * backend) : option (dict value) :=
  match respond (fetch_call kw item.2) with
  | Ok (VDict d) =>
      Some (dict_set "path" (VStr (os_path_join (mixed_path self) item.1))
              (dict_set "name" (VStr item.1) (dict_set "content" VNone d)))
  | _ => None
  end.

Definition listing (respond : call -> result value) (self : Self) (kw : kwargs)
  : list (dict value) :=
  omap (listed respond self kw) (managers self).

(** The [last_modified] of the entries of the listing that have one. *)
Definition timestamps (respond : call -> result value) (self : Self) (kw : kwargs)
  : list value :=
  omap (dict_get "last_modified") (listing respond self kw).

(** A string in which the separator occurs. *)
Definition has_sep (s : string) : bool := Str.mem sep_char s.

(** A method that makes no delegated call or exactly one. *)
Definition at_most_one_call {A} (m : M A) : Prop :=
  forall log, exists r, m log = (log, r) \/ exists c, m log = (log ++ [c], r).

(** The delegated calls a method makes from the empty log, and its outcome. *)
Definition calls_of {A} (m : M A) : list call := (m []).1.
Definition outcome_of {A} (m : M A) : result A := (m []).2.

(** ** Sample configuration *)

Definition onedata : string := "onedatafs_jupyter.OnedataFSContentsManager".

Definition scheme0 : list MountSpec :=
  [ {| root := "space1"; spec_class := onedata; config := [("space", VStr "/space1")] |};
    {| root := "space2"; spec_class := onedata; config := [("space", VStr "/space2")] |} ].

Definition space1 : backend := Backend 0 onedata [("space", VStr "/space1")].
Definition space2 : backend := Backend 1 onedata [("space", VStr "/space2")].

Definition self0 : Self :=
  {| mixed_path := "mixed"; managers := [("space1", space1); ("space2", space2)] |}.

(** The root record of a manager, last modified at [t]. *)
Definition root_model (t : Z) : value :=
  VDict [("name", VStr ""); ("path", VStr ""); ("type", VStr "directory");
         ("content", VList [VDict [("name", VStr "a.txt"); ("path", VStr "a.txt")]]);
         ("last_modified", VTime t); ("created", VTime t)].

(** Modelled from the spec: the operation set of a manager (section 3), under
    the names the router calls them by.  The inherited [LargeFileManager] is
    not part of this repository. *)
Definition contents_api : list string :=
  ["dir_exists"; "file_exists"; "exists"; "is_hidden"; "get"; "save"; "update";
   "delete"; "create_checkpoint"; "list_checkpoints"; "restore_checkpoint";
   "delete_checkpoint"; "rename"].

(** Collaborators for the examples: [space1] answers its root, last modified at
    [t1], the other managers answer [second]; the inherited manager holds
    nothing, and has no method outside the contents API. *)
Definition answer_roots (t1 : Z) (second : result value) (c : call) : result value :=
  match receiver c with
  | Mounted man => if Nat.eqb (oid man) 0 then Ok (root_model t1) else second
  | Default =>
      if existsb (String.eqb (meth c)) contents_api then Raise (HTTPError 404)
      else Raise (AttributeError (meth c))
  end.

(** * Properties *)

Example init_scheme0 :
  __init__ (fun _ => true) "mixed" scheme0 = ([space1; space2], Ok self0).
Proof. vm_compute. reflexivity. Qed.

(** ** Strings and path decomposition *)

Lemma split_not_nil (c : ascii) (s : string) : Str.split c s <> [].
Proof.
  destruct s as [|d s]; simpl; [discriminate|].
  destruct (Ascii.eqb d c); [discriminate|].
  destruct (Str.split c s); discriminate.
Qed.

Lemma join_cons_char (c : ascii) (piece : string) (pieces : list string) :
  Str.join sep (String c piece :: pieces) = String c (Str.join sep (piece :: pieces)).
Proof. destruct pieces; reflexivity. Qed.

Lemma join_split (s : string) : Str.join sep (Str.split sep_char s) = s.
Proof.
  induction s as [|c s IH]; [reflexivity|].
  simpl. destruct (Ascii.eqb_spec c sep_char) as [->|Hc].
  - destruct (Str.split sep_char s) as [|piece pieces] eqn:E.
    + by apply split_not_nil in E.
    + change (Str.join sep (EmptyString :: piece :: pieces))
        with (String sep_char (Str.join sep (piece :: pieces))).
      by rewrite IH.
  - destruct (Str.split sep_char s) as [|piece pieces] eqn:E.
    + by apply split_not_nil in E.
    + by rewrite join_cons_char, IH.
Qed.

Lemma append_cons (c : ascii) (a b : string) : String c a +:+ b = String c (a +:+ b).
Proof. reflexivity. Qed.

Lemma append_nil (b : string) : EmptyString +:+ b = b.
Proof. reflexivity. Qed.

Lemma mem_sep (c : ascii) : Str.mem c sep = Ascii.eqb c sep_char.
Proof. simpl. by destruct (Ascii.eqb c _). Qed.

Lemma startswith_sep (s : string) :
  Str.startswith s sep = match s with String c _ => Ascii.eqb c sep_char | _ => false end.
Proof. destruct s as [|c s]; simpl; [done|]. by rewrite andb_true_r. Qed.

Lemma lstrip_split (s : string) :
  exists pre, s = pre +:+ Str.lstrip sep s /\ all_sep pre = true.
Proof.
  induction s as [|c s (pre & IH & Hpre)].
  - by exists EmptyString.
  - cbn [Str.lstrip]. rewrite mem_sep. destruct (Ascii.eqb c sep_char) eqn:Hc.
    + exists (String c pre). split.
      * rewrite append_cons. by f_equal.
      * cbn [all_sep]. by rewrite Hc, Hpre.
    + by exists EmptyString.
Qed.

Lemma lstrip_no_leading (s : string) : Str.startswith (Str.lstrip sep s) sep = false.
Proof.
  induction s as [|c s IH]; [done|].
  cbn [Str.lstrip]. rewrite mem_sep. destruct (Ascii.eqb c sep_char) eqn:Hc; [done|].
  by rewrite startswith_sep.
Qed.

Lemma rstrip_split (s : string) :
  exists post, s = Str.rstrip sep s +:+ post /\ all_sep post = true.
Proof.
  induction s as [|c s (post & IH & Hpost)].
  - by exists EmptyString.
  - cbn [Str.rstrip]. rewrite mem_sep.
    destruct (Str.rstrip sep s) as [|d kept] eqn:E.
    + destruct (Ascii.eqb c sep_char) eqn:Hc.
      * exists (String c post). rewrite append_nil in *. cbn [all_sep].
        by rewrite Hc, Hpost, <- IH.
      * exists post. rewrite append_cons, append_nil in *. by subst.
    + exists post. split; [|done]. rewrite append_cons. f_equal. exact IH.
Qed.

Lemma rstrip_no_trailing (s : string) :
  Str.endswith_char (Str.rstrip sep s) sep_char = false.
Proof.
  induction s as [|c s IH]; [done|].
  cbn [Str.rstrip]. rewrite mem_sep.
  destruct (Str.rstrip sep s) as [|d kept] eqn:E.
  - destruct (Ascii.eqb c sep_char) eqn:Hc; [done|exact Hc].
  - exact IH.
Qed.

Lemma rstrip_keeps_head (s : string) :
  Str.startswith s sep = false -> Str.startswith (Str.rstrip sep s) sep = false.
Proof.
  rewrite !startswith_sep. destruct s as [|c s]; [done|].
  cbn [Str.rstrip]. rewrite mem_sep. intros Hc.
  destruct (Str.rstrip sep s); [by rewrite Hc|done].
Qed.

Lemma strip_no_leading (p : string) : Str.startswith (Str.strip sep p) sep = false.
Proof. apply rstrip_keeps_head, lstrip_no_leading. Qed.

Lemma strip_no_trailing (p : string) :
  Str.endswith_char (Str.strip sep p) sep_char = false.
Proof. apply rstrip_no_trailing. Qed.

Lemma append_assoc (a b c : string) : (a +:+ b) +:+ c = a +:+ b +:+ c.
Proof. induction a as [|x a IH]; [done|]. by rewrite !append_cons, IH. Qed.

Lemma strip_split (p : string) :
  exists pre post,
    p = pre +:+ Str.strip sep p +:+ post /\ all_sep pre = true /\ all_sep post = true.
Proof.
  destruct (lstrip_split p) as (pre & Hp & Hpre).
  destruct (rstrip_split (Str.lstrip sep p)) as (post & Hl & Hpost).
  exists pre, post. unfold Str.strip. by rewrite <- Hl.
Qed.

Lemma split_path_eq (p : string) :
  exists sentinel rest,
    Str.split sep_char (Str.strip sep p) = sentinel :: rest
    /\ _split_path p = Some (sentinel, rest, Str.strip sep p).
Proof.
  unfold _split_path.
  destruct (Str.split sep_char (Str.strip sep p)) as [|x l] eqn:E.
  - by apply split_not_nil in E.
  - by exists x, l.
Qed.

(** C4: [_split_path] never fails, and joining the sentinel and the rest with
    the separator gives back the stripped path, which is the path without the
    separators at its two ends. *)
Theorem split_path_total_rejoin (p : string) :
  exists sentinel rest,
    _split_path p = Some (sentinel, rest, Str.strip sep p)
    /\ Str.join sep (sentinel :: rest) = Str.strip sep p
    /\ (exists pre post,
          p = pre +:+ Str.strip sep p +:+ post
          /\ all_sep pre = true /\ all_sep post = true)
    /\ Str.startswith (Str.strip sep p) sep = false
    /\ Str.endswith_char (Str.strip sep p) sep_char = false.
Proof.
  destruct (split_path_eq p) as (sentinel & rest & Hsplit & Heq).
  exists sentinel, rest. split_and!.
  - done.
  - by rewrite <- Hsplit, join_split.
  - apply strip_split.
  - apply strip_no_leading.
  - apply strip_no_trailing.
Qed.

Example split_path_mount :
  _split_path "/mixed/space1/a/b/"
  = Some ("mixed", ["space1"; "a"; "b"], "mixed/space1/a/b").
Proof. reflexivity. Qed.

Example split_path_empty : _split_path "" = Some ("", [], "").
Proof. reflexivity. Qed.

Example split_path_inner : _split_path "a//b" = Some ("a", [""; "b"], "a//b").
Proof. reflexivity. Qed.

Example os_path_join_ex :
  os_path_join "mixed/space1" "a/b" = "mixed/space1/a/b"
  /\ os_path_join "mixed/space1" "/c" = "/c"
  /\ os_path_join "/" "a" = "/a"
  /\ os_path_join "" "a" = "a".
Proof. repeat split. Qed.

(** ** Resolution of a path *)

Lemma length_append (a b : string) :
  String.length (a +:+ b) = (String.length a + String.length b)%nat.
Proof. induction a as [|c a IH]; [done|]. rewrite append_cons. simpl. by rewrite IH. Qed.

Lemma join_longer (x y : string) (l : list string) :
  (String.length x < String.length (Str.join sep (x :: y :: l)))%nat.
Proof.
  change (Str.join sep (x :: y :: l)) with (x +:+ sep +:+ Str.join sep (y :: l)).
  rewrite !length_append. simpl. lia.
Qed.

Lemma get_cm_nil (self : Self) (sentinel : string) : _get_cm self sentinel [] = None.
Proof. unfold _get_cm. simpl. by rewrite orb_true_r. Qed.

Lemma get_cm_other (self : Self) (sentinel : string) (listpath : list string) :
  sentinel <> mixed_path self -> _get_cm self sentinel listpath = None.
Proof.
  intros Hne. unfold _get_cm.
  destruct (String.eqb_spec sentinel (mixed_path self)); [done|reflexivity].
Qed.

Lemma get_cm_some (self : Self) (sentinel : string) (listpath : list string) (man : backend) :
  _get_cm self sentinel listpath = Some man ->
  sentinel = mixed_path self
  /\ exists mount inner, listpath = mount :: inner /\ dict_get mount (managers self) = Some man.
Proof.
  unfold _get_cm. destruct (String.eqb_spec sentinel (mixed_path self)) as [->|]; [|done].
  destruct listpath as [|mount inner]; [done|]. simpl. eauto.
Qed.

(** The empty path and the bare prefix are never routed to a manager. *)
Lemma root_unresolved (self : Self) (path sentinel q : string) (listpath : list string) :
  _split_path path = Some (sentinel, listpath, q) ->
  q = "" \/ q = mixed_path self ->
  _get_cm self sentinel listpath = None.
Proof.
  intros Hsplit Hq.
  destruct (split_path_eq path) as (s & l & Hjoin & Hs).
  apply (f_equal (Str.join sep)) in Hjoin. rewrite join_split in Hjoin.
  rewrite Hsplit in Hs. injection Hs as <- <- Hq'. rewrite <- Hq' in Hjoin.
  symmetry in Hjoin.
  destruct listpath as [|y l]; [apply get_cm_nil|].
  apply get_cm_other. intros Heq.
  pose proof (join_longer sentinel y l) as Hlen. rewrite Hjoin in Hlen.
  destruct Hq as [->| ->]; [simpl in Hlen; lia|].
  rewrite Heq in Hlen. lia.
Qed.

(** ** The dispatch wrappers *)

Section Dispatch.

Variable respond : call -> result value.

Lemma dispatch1_fallback name method self path kw sentinel listpath q :
  _split_path path = Some (sentinel, listpath, q) ->
  _get_cm self sentinel listpath = None ->
  path_dispatch1 respond name method self path kw = method self q kw.
Proof.
  intros Hsplit Hcm. unfold path_dispatch1, split_path, lift_opt, mbind, M_bind.
  rewrite Hsplit, Hcm. reflexivity.
Qed.

Lemma dispatch1_mounted name method self path kw sentinel mount inner q man :
  _split_path path = Some (sentinel, mount :: inner, q) ->
  _get_cm self sentinel (mount :: inner) = Some man ->
  forwards_fixed respond (path_dispatch1 respond name method self path kw)
    (Call (Mounted man) name [VStr (Str.join sep inner)] kw)
    (os_path_join sentinel mount).
Proof.
  intros Hsplit Hcm log.
  unfold path_dispatch1, split_path, lift_opt, mbind, M_bind, invoke, lift.
  rewrite Hsplit, Hcm. simpl. unfold result_bind. by destruct (respond _).
Qed.

Lemma dispatch2_fallback name method self other path sentinel listpath q :
  _split_path path = Some (sentinel, listpath, q) ->
  _get_cm self sentinel listpath = None ->
  path_dispatch2 respond name method self other path = method self other q.
Proof.
  intros Hsplit Hcm. unfold path_dispatch2, split_path, lift_opt, mbind, M_bind.
  rewrite Hsplit, Hcm. reflexivity.
Qed.

Lemma dispatch2_mounted name method self other path sentinel mount inner q man :
  _split_path path = Some (sentinel, mount :: inner, q) ->
  _get_cm self sentinel (mount :: inner) = Some man ->
  forwards_fixed respond (path_dispatch2 respond name method self other path)
    (Call (Mounted man) name [other; VStr (Str.join sep inner)] [])
    (os_path_join sentinel mount).
Proof.
  intros Hsplit Hcm log.
  unfold path_dispatch2, split_path, lift_opt, mbind, M_bind, invoke, lift.
  rewrite Hsplit, Hcm. simpl. unfold result_bind. by destruct (respond _).
Qed.

Lemma dispatch_kwarg_fallback name method self path sentinel listpath q :
  _split_path path = Some (sentinel, listpath, q) ->
  _get_cm self sentinel listpath = None ->
  path_dispatch_kwarg respond name method self path = method self q.
Proof.
  intros Hsplit Hcm. unfold path_dispatch_kwarg, split_path, lift_opt, mbind, M_bind.
  rewrite Hsplit, Hcm. reflexivity.
Qed.

Lemma dispatch_kwarg_mounted name method self path sentinel mount inner q man :
  _split_path path = Some (sentinel, mount :: inner, q) ->
  _get_cm self sentinel (mount :: inner) = Some man ->
  forwards_fixed respond (path_dispatch_kwarg respond name method self path)
    (Call (Mounted man) name [] [("path", VStr (Str.join sep inner))])
    (os_path_join sentinel mount).
Proof.
  intros Hsplit Hcm log.
  unfold path_dispatch_kwarg, split_path, lift_opt, mbind, M_bind, invoke, lift.
  rewrite Hsplit, Hcm. simpl. unfold result_bind. by destruct (respond _).
Qed.

Lemma is_root_true self q :
  q = "" \/ q = mixed_path self -> is_root self q = true.
Proof.
  unfold is_root. intros [->| ->]; [done|].
  rewrite String.eqb_refl. apply orb_true_r.
Qed.

Lemma is_root_false self q :
  q <> "" -> q <> mixed_path self -> is_root self q = false.
Proof.
  unfold is_root. intros Hq Hm.
  destruct (String.eqb_spec q (mixed_path self)); [done|].
  destruct q; [done|reflexivity].
Qed.

Lemma os_join_root q : Str.startswith q sep = false -> os_path_join "/" q = "/" +:+ q.
Proof. unfold os_path_join. by intros ->. Qed.

(** C8: on the empty path and on the bare prefix, [dir_exists] and [exists]
    answer [True] and [file_exists] and [is_hidden] answer [False], and no
    manager is called. *)
Theorem prefix_alone (self : Self) (path : string) :
  Str.strip sep path = "" \/ Str.strip sep path = mixed_path self ->
  answers (dir_exists respond self path) (VBool true)
  /\ answers (exists_ respond self path) (VBool true)
  /\ answers (file_exists respond self path) (VBool false)
  /\ answers (is_hidden respond self path) (VBool false).
Proof.
  intros Hroot.
  destruct (split_path_eq path) as (sentinel & listpath & _ & Hsplit).
  pose proof (root_unresolved self _ _ _ _ Hsplit Hroot) as Hcm.
  pose proof (is_root_true self _ Hroot) as Hr.
  unfold answers, dir_exists, exists_, file_exists, is_hidden.
  rewrite !(dispatch1_fallback _ _ _ _ _ _ _ _ Hsplit Hcm).
  rewrite (dispatch_kwarg_fallback _ _ _ _ _ _ _ Hsplit Hcm).
  by rewrite Hr.
Qed.


(** C9, as the code has it: a path that is routed to no manager and is
    neither empty nor the bare prefix goes to the inherited operation of the
    same name, whose answer is returned as it is.  The path handed over is
    the stripped path, under [/] for the existence tests and [get]. *)
Theorem fallback_normalized (self : Self) (path : string) (kw : kwargs) (model : value) :
  resolve self path = None ->
  Str.strip sep path <> "" ->
  Str.strip sep path <> mixed_path self ->
  let q := Str.strip sep path in
  forwards respond (dir_exists respond self path) (Call Default "dir_exists" [VStr ("/" +:+ q)] [])
  /\ forwards respond (is_hidden respond self path) (Call Default "is_hidden" [VStr ("/" +:+ q)] [])
  /\ forwards respond (file_exists respond self path) (Call Default "file_exists" [VStr ("/" +:+ q)] [])
  /\ forwards respond (exists_ respond self path) (Call Default "exists" [VStr ("/" +:+ q)] [])
  /\ forwards respond (get respond self path kw) (Call Default "get" [VStr ("/" +:+ q)] kw)
  /\ forwards respond (save respond self model path) (Call Default "save" [model; VStr q] [])
  /\ forwards respond (delete respond self path) (Call Default "delete" [VStr q] [])
  /\ forwards respond (create_checkpoint respond self path)
       (Call Default "create_checkpoint" [VStr q] [])
  /\ forwards respond (list_checkpoints respond self path)
       (Call Default "list_checkpoints" [VStr q] []).
Proof.
  intros Hres Hne Hnm q. subst q.
  destruct (split_path_eq path) as (sentinel & listpath & _ & Hsplit).
  unfold resolve in Hres. rewrite Hsplit in Hres.
  pose proof (is_root_false self _ Hne Hnm) as Hr.
  pose proof (os_join_root _ (strip_no_leading path)) as Hj.
  assert (Nat.eqb (String.length (Str.strip sep path)) 0 = false) as Hlen.
  { by destruct (Str.strip sep path). }
  assert (String.eqb (Str.strip sep path) (mixed_path self) = false) as Hmix.
  { by apply String.eqb_neq. }
  unfold forwards, dir_exists, is_hidden, file_exists, exists_, get, save, delete,
    create_checkpoint, list_checkpoints.
  rewrite !(dispatch1_fallback _ _ _ _ _ _ _ _ Hsplit Hres).
  rewrite (dispatch2_fallback _ _ _ _ _ _ _ _ Hsplit Hres).
  rewrite (dispatch_kwarg_fallback _ _ _ _ _ _ _ Hsplit Hres).
  rewrite Hr, Hlen, Hmix, Hj.
  repeat split.
Qed.

(** The fallback of the two checkpoint operations that take an identifier:
    the inherited method looked up has another name, and the identifier is
    not handed over. *)
Lemma checkpoint_fallback (self : Self) (checkpoint_id : value) (path : string) :
  resolve self path = None ->
  forwards respond (restore_checkpoint respond self checkpoint_id path)
    (Call Default "restore_checkpoints" [VStr (Str.strip sep path)] [])
  /\ forwards respond (delete_checkpoint respond self checkpoint_id path)
       (Call Default "delete_checkpoints" [VStr (Str.strip sep path)] []).
Proof.
  intros Hres.
  destruct (split_path_eq path) as (sentinel & listpath & _ & Hsplit).
  unfold resolve in Hres. rewrite Hsplit in Hres.
  unfold forwards, restore_checkpoint, delete_checkpoint.
  rewrite !(dispatch2_fallback _ _ _ _ _ _ _ _ Hsplit Hres).
  by split.
Qed.

(** On a mounted path the same two operations hand both arguments to the
    method of their own name. *)
Lemma checkpoint_mounted (self : Self) (checkpoint_id : value) (path : string)
    sentinel mount inner q man :
  _split_path path = Some (sentinel, mount :: inner, q) ->
  _get_cm self sentinel (mount :: inner) = Some man ->
  forwards_fixed respond (restore_checkpoint respond self checkpoint_id path)
    (Call (Mounted man) "restore_checkpoint" [checkpoint_id; VStr (Str.join sep inner)] [])
    (os_path_join sentinel mount)
  /\ forwards_fixed respond (delete_checkpoint respond self checkpoint_id path)
       (Call (Mounted man) "delete_checkpoint" [checkpoint_id; VStr (Str.join sep inner)] [])
       (os_path_join sentinel mount).
Proof. intros Hsplit Hcm. split; by apply dispatch2_mounted with (q := q). Qed.


(** *** [update] *)

Lemma update_unfold (self : Self) (fields : dict value) (mp path : string)
    sentinel listpath q m_sentinel m_listpath m_q :
  dict_get "path" fields = Some (VStr mp) ->
  _split_path path = Some (sentinel, listpath, q) ->
  _split_path mp = Some (m_sentinel, m_listpath, m_q) ->
  update respond self (VDict fields) path =
    let man := _get_cm self sentinel listpath in
    let m_man := _get_cm self m_sentinel m_listpath in
    if negb (same_object man m_man) then raise (ValueError cross_mount_msg)
    else
      match man with
      | Some man =>
          first ← lift_opt IndexError (head listpath);
          model ← lift (setitem (VDict fields) "path"
                          (VStr (Str.join sep (drop 1 m_listpath))));
          sub ← invoke respond (Call (Mounted man) "update"
                                  [model; VStr (Str.join sep (drop 1 listpath))] []);
          lift (_fix_paths sub (os_path_join sentinel first))
      | None => invoke respond (Call Default "update" [VDict fields; VStr path] [])
      end.
Proof.
  intros Hmp Hsplit Hmsplit.
  unfold update, split_path, lift_opt, lift, getitem, mbind, M_bind.
  rewrite Hsplit, Hmp, Hmsplit. reflexivity.
Qed.

(** C2: [update] raises when the path and the model's path are routed to
    different managers; when both are routed to one mounted manager, that
    manager's [update] receives the model and the path cut down to the
    segments after the mount name, and its answer goes through
    [_fix_paths]; when neither is routed, the inherited [update] receives
    the model and the path as given. *)
Theorem update_routes (self : Self) (fields : dict value) (mp path : string) :
  dict_get "path" fields = Some (VStr mp) ->
  (same_object (resolve self path) (resolve self mp) = false ->
   forall log, update respond self (VDict fields) path log
               = (log, Raise (ValueError cross_mount_msg)))
  /\ (forall man,
        resolve self path = Some man ->
        same_object (Some man) (resolve self mp) = true ->
        exists mount inner q m_mount m_inner m_q,
          _split_path path = Some (mixed_path self, mount :: inner, q)
          /\ _split_path mp = Some (mixed_path self, m_mount :: m_inner, m_q)
          /\ forwards_fixed respond (update respond self (VDict fields) path)
               (Call (Mounted man) "update"
                  [VDict (dict_set "path" (VStr (Str.join sep m_inner)) fields);
                   VStr (Str.join sep inner)] [])
               (os_path_join (mixed_path self) mount))
  /\ (resolve self path = None ->
      resolve self mp = None ->
      forwards respond (update respond self (VDict fields) path)
        (Call Default "update" [VDict fields; VStr path] [])).
Proof.
  intros Hmp.
  destruct (split_path_eq path) as (sentinel & listpath & _ & Hsplit).
  destruct (split_path_eq mp) as (m_sentinel & m_listpath & _ & Hmsplit).
  pose proof (update_unfold self _ _ _ _ _ _ _ _ _ Hmp Hsplit Hmsplit) as Hup.
  unfold resolve. rewrite Hsplit, Hmsplit. repeat split.
  - intros Hdiff log. rewrite Hup. cbv zeta. by rewrite Hdiff.
  - intros man Hman Hsame.
    destruct (_get_cm self m_sentinel m_listpath) as [m_man|] eqn:Hmman; [|done].
    destruct (get_cm_some _ _ _ _ Hman) as (Hs & mount & inner & Hl & _).
    destruct (get_cm_some _ _ _ _ Hmman) as (Hms & m_mount & m_inner & Hml & _).
    exists mount, inner, (Str.strip sep path), m_mount, m_inner, (Str.strip sep mp).
    subst sentinel m_sentinel. repeat split; [by subst..|].
    intros log. rewrite Hup. cbv zeta. rewrite Hman, Hsame. subst.
    unfold lift_opt, lift, invoke, mbind, M_bind. simpl.
    rewrite !drop_0. unfold result_bind. by destruct (respond _).
  - intros Hnone Hmnone log. rewrite Hup. cbv zeta. by rewrite Hnone, Hmnone.
Qed.

(** *** [rename] *)

(** The guard of the rename wrapper compares the two stripped paths. *)
Lemma rename_differing_paths (name : string) method (self : Self) (old_path new_path : string) :
  Str.strip sep old_path <> Str.strip sep new_path ->
  forall log, path_dispatch_rename respond name method self old_path new_path log
              = (log, Raise (ValueError cross_rename_msg)).
Proof.
  intros Hne log.
  destruct (split_path_eq old_path) as (? & ? & _ & Hold).
  destruct (split_path_eq new_path) as (? & ? & _ & Hnew).
  unfold path_dispatch_rename, split_path, lift_opt, mbind, M_bind.
  rewrite Hold, Hnew.
  by destruct (String.eqb_spec (Str.strip sep old_path) (Str.strip sep new_path)).
Qed.

(** It lets a rename through only onto the same stripped path; the manager
    is then looked up under the whole stripped path. *)
Lemma rename_same_path (name : string) method (self : Self) (old_path new_path : string) :
  Str.strip sep old_path = Str.strip sep new_path ->
  dict_get (Str.strip sep new_path) (managers self) = None ->
  path_dispatch_rename respond name method self old_path new_path
  = method self old_path new_path.
Proof.
  intros Heq Hnone.
  destruct (split_path_eq old_path) as (? & ? & _ & Hold).
  destruct (split_path_eq new_path) as (? & ? & _ & Hnew).
  unfold path_dispatch_rename, split_path, lift_opt, mbind, M_bind.
  rewrite Hold, Hnew, Heq, String.eqb_refl, Hnone. reflexivity.
Qed.

(** C1: with the managers [space1] and [space2] mounted under [mixed], the
    rename across mounts raises, and so does the rename inside [space1]:
    no manager is called. *)
Theorem rename_within_mount_raises (log : list call) :
  rename respond self0 "mixed/space1/x" "mixed/space2/y" log
    = (log, Raise (ValueError cross_rename_msg))
  /\ rename respond self0 "mixed/space1/x" "mixed/space1/y" log
    = (log, Raise (ValueError cross_rename_msg)).
Proof. split; by apply rename_differing_paths. Qed.

(** C3: off the mounts, [restore_checkpoint] and [delete_checkpoint] look up
    [restore_checkpoints] and [delete_checkpoints] on the inherited manager
    and hand over the path alone. *)
Theorem checkpoint_fallback_calls (log : list call) :
  restore_checkpoint respond self0 (VStr "cp1") "notes.ipynb" log
    = (log ++ [Call Default "restore_checkpoints" [VStr "notes.ipynb"] []],
       respond (Call Default "restore_checkpoints" [VStr "notes.ipynb"] []))
  /\ delete_checkpoint respond self0 (VStr "cp1") "notes.ipynb" log
    = (log ++ [Call Default "delete_checkpoints" [VStr "notes.ipynb"] []],
       respond (Call Default "delete_checkpoints" [VStr "notes.ipynb"] [])).
Proof. split; by apply (checkpoint_fallback self0 (VStr "cp1") "notes.ipynb"). Qed.

End Dispatch.

Lemma prefix_alone_witness :
  (answers (dir_exists (answer_roots 1 (Raise (HTTPError 503))) self0 "/mixed/") (VBool true)
   /\ answers (exists_ (answer_roots 1 (Raise (HTTPError 503))) self0 "/mixed/") (VBool true)
   /\ answers (file_exists (answer_roots 1 (Raise (HTTPError 503))) self0 "/mixed/") (VBool false)
   /\ answers (is_hidden (answer_roots 1 (Raise (HTTPError 503))) self0 "/mixed/") (VBool false))
  /\ answers (dir_exists (answer_roots 1 (Raise (HTTPError 503))) self0 "") (VBool true).
Proof.
  split.
  - apply (prefix_alone (answer_roots 1 (Raise (HTTPError 503))) self0 "/mixed/").
    right. reflexivity.
  - apply (prefix_alone (answer_roots 1 (Raise (HTTPError 503))) self0 "").
    left. reflexivity.
Defined.

Lemma fallback_normalized_witness :
  resolve self0 "/work/notes.ipynb/" = None
  /\ forwards (answer_roots 1 (Ok VNone))
       (dir_exists (answer_roots 1 (Ok VNone)) self0 "/work/notes.ipynb/")
       (Call Default "dir_exists" [VStr "/work/notes.ipynb"] [])
  /\ forwards (answer_roots 1 (Ok VNone))
       (delete (answer_roots 1 (Ok VNone)) self0 "/work/notes.ipynb/")
       (Call Default "delete" [VStr "work/notes.ipynb"] []).
Proof.
  pose proof (fallback_normalized (answer_roots 1 (Ok VNone)) self0 "/work/notes.ipynb/"
                [] VNone eq_refl) as H.
  split; [reflexivity|]. split; apply H; discriminate.
Defined.

(** C9 as stated fails: the inherited operation does not get the path it was
    called with.  [delete] on [/work/] hands over [work], and [dir_exists] on
    [work] hands over [/work]. *)
Lemma fallback_original_path_counterexample :
  resolve self0 "/work/" = None
  /\ resolve self0 "work" = None
  /\ ~ forwards (answer_roots 1 (Ok VNone))
        (delete (answer_roots 1 (Ok VNone)) self0 "/work/")
        (Call Default "delete" [VStr "/work/"] [])
  /\ ~ forwards (answer_roots 1 (Ok VNone))
        (dir_exists (answer_roots 1 (Ok VNone)) self0 "work")
        (Call Default "dir_exists" [VStr "work"] []).
Proof.
  split_and!; [reflexivity..| |]; intros H; specialize (H []); discriminate H.
Qed.

Lemma update_routes_witness :
  (forall log,
     update (answer_roots 1 (Ok VNone)) self0
       (VDict [("path", VStr "mixed/space2/b.txt")]) "mixed/space1/a.txt" log
     = (log, Raise (ValueError cross_mount_msg)))
  /\ (exists mount inner q m_mount m_inner m_q,
        _split_path "mixed/space1/new.txt" = Some ("mixed", mount :: inner, q)
        /\ _split_path "/mixed/space1/old.txt" = Some ("mixed", m_mount :: m_inner, m_q)
        /\ forwards_fixed (answer_roots 1 (Ok VNone))
             (update (answer_roots 1 (Ok VNone)) self0
                (VDict [("path", VStr "/mixed/space1/old.txt")]) "mixed/space1/new.txt")
             (Call (Mounted space1) "update"
                [VDict (dict_set "path" (VStr (Str.join sep m_inner))
                          [("path", VStr "/mixed/space1/old.txt")]);
                 VStr (Str.join sep inner)] [])
             (os_path_join "mixed" mount))
  /\ forwards (answer_roots 1 (Ok VNone))
       (update (answer_roots 1 (Ok VNone)) self0
          (VDict [("path", VStr "work/a.txt")]) "/work/a.txt")
       (Call Default "update" [VDict [("path", VStr "work/a.txt")]; VStr "/work/a.txt"] []).
Proof.
  split_and!.
  - exact (proj1 (update_routes (answer_roots 1 (Ok VNone)) self0
                    [("path", VStr "mixed/space2/b.txt")]
                    "mixed/space2/b.txt" "mixed/space1/a.txt" eq_refl) eq_refl).
  - exact (proj1 (proj2 (update_routes (answer_roots 1 (Ok VNone)) self0
                           [("path", VStr "/mixed/space1/old.txt")]
                           "/mixed/space1/old.txt" "mixed/space1/new.txt" eq_refl))
             space1 eq_refl eq_refl).
  - exact (proj2 (proj2 (update_routes (answer_roots 1 (Ok VNone)) self0
                           [("path", VStr "work/a.txt")]
                           "work/a.txt" "/work/a.txt" eq_refl))
             eq_refl eq_refl).
Defined.

Example update_mounted_run :
  update (answer_roots 1 (Ok (VDict [("path", VStr "new.txt")]))) self0
    (VDict [("path", VStr "/mixed/space2/old.txt"); ("type", VStr "file")])
    "mixed/space2/new.txt" []
  = ([Call (Mounted space2) "update"
        [VDict [("path", VStr "old.txt"); ("type", VStr "file")]; VStr "new.txt"] []],
     Ok (VDict [("path", VStr "mixed/space2/new.txt")])).
Proof. reflexivity. Qed.

(** A rename goes through the guard only onto the same path; with a manager
    mounted under that whole path the manager is called and the answer is
    handed to [fix_path], which the router does not define. *)
Example rename_onto_itself :
  rename (answer_roots 1 (Ok VNone)) self0 "space1" "/space1/" []
  = ([Call (Mounted space1) "rename" [VStr ""; VStr ""] [];
      Call Default "fix_path" [VStr "space1"; root_model 1] []],
     Raise (AttributeError "fix_path")).
Proof. reflexivity. Qed.

Example restore_checkpoint_run :
  restore_checkpoint (answer_roots 1 (Ok VNone)) self0 (VStr "cp1") "notes.ipynb" []
  = ([Call Default "restore_checkpoints" [VStr "notes.ipynb"] []],
     Raise (AttributeError "restore_checkpoints")).
Proof. reflexivity. Qed.

Example restore_checkpoint_mounted_run :
  restore_checkpoint (answer_roots 1 (Ok VNone)) self0 (VStr "cp1")
    "mixed/space2/notes.ipynb" []
  = ([Call (Mounted space2) "restore_checkpoint" [VStr "cp1"; VStr "notes.ipynb"] []],
     Ok VNone).
Proof. reflexivity. Qed.

(** ** The response rewriter *)

Lemma dict_get_set_eq {A} (k : string) (v : A) (d : dict A) :
  dict_get k (dict_set k v d) = Some v.
Proof.
  induction d as [|[k' v'] d IH]; simpl.
  - by rewrite String.eqb_refl.
  - destruct (String.eqb k k') eqn:E; simpl; rewrite ?String.eqb_refl, ?E; done.
Qed.

Lemma dict_get_set_ne {A} (k k' : string) (v : A) (d : dict A) :
  k <> k' -> dict_get k' (dict_set k v d) = dict_get k' d.
Proof.
  intros Hne. induction d as [|[k0 v0] d IH]; simpl.
  - by destruct (String.eqb_spec k' k) as [->|].
  - destruct (String.eqb_spec k k0) as [->|]; simpl.
    + by destruct (String.eqb_spec k' k0) as [->|].
    + by rewrite IH.
Qed.

Lemma fix_entry_ok (base_path : string) (e : value) :
  entry_ok e ->
  exists e', fix_entry base_path e = Ok e' /\ entry_rewritten base_path e e'.
Proof.
  intros (d & -> & [Hnone|(p & Hp)]).
  - exists (VDict d). unfold fix_entry, contains_key, dict_has. simpl.
    rewrite Hnone. split; [done|]. exists d, d. by rewrite Hnone.
  - exists (VDict (dict_set "path" (VStr (os_path_join base_path (Str.lstrip sep p))) d)).
    unfold fix_entry, contains_key, dict_has. simpl. rewrite Hp. simpl.
    split; [done|]. eexists _, _. repeat split.
    + intros k Hk. by apply dict_get_set_ne.
    + by rewrite Hp, dict_get_set_eq.
Qed.

Lemma fix_entries_ok (base_path : string) (es : list value) :
  Forall entry_ok es ->
  exists es', fix_entries base_path es = Ok es'
              /\ Forall2 (entry_rewritten base_path) es es'.
Proof.
  induction 1 as [|e es He _ (es' & IH & Hall)].
  - by exists [].
  - destruct (fix_entry_ok base_path e He) as (e' & He' & Hrw).
    exists (e' :: es'). simpl. rewrite He'. simpl. rewrite IH. simpl.
    split; [done|by constructor].
Qed.

(** C6: [_fix_paths] returns what is not a dict as it is; it puts the path of
    a record under the base path; in a directory with entries it puts the path
    of each entry under the base path, leading separators dropped, and leaves
    every other field of the entry, its own content with it, alone. *)
Theorem fix_paths_rewrites (base_path : string) :
  (forall sub, (forall fields, sub <> VDict fields) -> _fix_paths sub base_path = Ok sub)
  /\ (forall fields p,
        dict_get "path" fields = Some (VStr p) ->
        dict_get "type" fields <> Some (VStr "directory")
        \/ truthy (default VNone (dict_get "content" fields)) = false ->
        _fix_paths (VDict fields) base_path
        = Ok (VDict (dict_set "path" (VStr (os_path_join base_path p)) fields)))
  /\ (forall fields es,
        plain_path fields ->
        dict_get "type" fields = Some (VStr "directory") ->
        dict_get "content" fields = Some (VList es) ->
        es <> [] ->
        Forall entry_ok es ->
        exists fields' es',
          _fix_paths (VDict fields) base_path = Ok (VDict fields')
          /\ dict_get "content" fields' = Some (VList es')
          /\ Forall2 (entry_rewritten base_path) es es'
          /\ dict_get "path" fields' =
               match dict_get "path" fields with
               | Some (VStr p) => Some (VStr (os_path_join base_path p))
               | other => other
               end
          /\ (forall k, k <> "path" -> k <> "content" ->
                        dict_get k fields' = dict_get k fields))
  /\ (base_path = "mixed/space1" ->
      _fix_paths (VDict [("path", VStr "a/b")]) base_path
      = Ok (VDict [("path", VStr "mixed/space1/a/b")])
      /\ _fix_paths
           (VDict [("type", VStr "directory");
                   ("content",
                     VList [VDict [("path", VStr "/c");
                                   ("content", VList [VDict [("path", VStr "c/d")]])]])])
           base_path
         = Ok (VDict [("type", VStr "directory");
                      ("content",
                        VList [VDict [("path", VStr "mixed/space1/c");
                                      ("content", VList [VDict [("path", VStr "c/d")]])]])])).
Proof.
  split_and!; [| | |by intros ->].
  - intros sub Hsub. destruct sub; try done. by destruct (Hsub fields).
  - intros fields p Hp Hleaf. unfold _fix_paths. rewrite Hp. simpl.
    rewrite !dict_get_set_ne by done.
    destruct Hleaf as [Htype| ->]; [|by rewrite andb_false_r].
    destruct (dict_get "type" fields) as [t|]; [|done].
    destruct t; try done. simpl.
    destruct (String.eqb_spec s "directory") as [->|]; done.
  - intros fields es Hpath Htype Hcontent Hes Hall.
    destruct (fix_entries_ok base_path es Hall) as (es' & Hfix & Hrw).
    assert (truthy (VList es) = true) as Htruthy by by destruct es.
    unfold _fix_paths.
    destruct Hpath as [Hnone|(p & Hp)].
    + rewrite Hnone. simpl. rewrite Htype, Hcontent.
      change (default VNone (Some (VList es))) with (VList es).
      rewrite Htruthy. simpl. rewrite Hfix. simpl.
      eexists _, es'. repeat split; [by rewrite dict_get_set_eq|done|..].
      * by rewrite dict_get_set_ne.
      * intros k _ Hk. by rewrite dict_get_set_ne.
    + rewrite Hp. simpl. rewrite !dict_get_set_ne by done.
      rewrite Htype, Hcontent.
      change (default VNone (Some (VList es))) with (VList es).
      rewrite Htruthy. simpl. rewrite Hfix. simpl.
      eexists _, es'. repeat split; [by rewrite dict_get_set_eq|done|..].
      * by rewrite dict_get_set_ne, dict_get_set_eq.
      * intros k Hk Hk'. by rewrite !dict_get_set_ne.
Qed.

Lemma fix_paths_rewrites_witness :
  _fix_paths (VBool true) "mixed/space1" = Ok (VBool true)
  /\ _fix_paths (VDict [("path", VStr "a/b")]) "mixed/space1"
     = Ok (VDict (dict_set "path" (VStr (os_path_join "mixed/space1" "a/b"))
                    [("path", VStr "a/b")]))
  /\ (exists fields' es',
        _fix_paths (VDict [("type", VStr "directory");
                           ("content", VList [VDict [("path", VStr "/c")]])])
                   "mixed/space1"
        = Ok (VDict fields')
        /\ dict_get "content" fields' = Some (VList es')
        /\ Forall2 (entry_rewritten "mixed/space1") [VDict [("path", VStr "/c")]] es')
  /\ _fix_paths (VDict [("path", VStr "a/b")]) "mixed/space1"
     = Ok (VDict [("path", VStr "mixed/space1/a/b")]).
Proof.
  split_and!; [| | |apply (fix_paths_rewrites "mixed/space1"); reflexivity].
  - apply (proj1 (fix_paths_rewrites "mixed/space1")). discriminate.
  - apply (proj1 (proj2 (fix_paths_rewrites "mixed/space1"))); [reflexivity|].
    left. discriminate.
  - destruct (proj1 (proj2 (proj2 (fix_paths_rewrites "mixed/space1")))
                [("type", VStr "directory");
                 ("content", VList [VDict [("path", VStr "/c")]])]
                [VDict [("path", VStr "/c")]])
      as (fields' & es' & Hrun & Hcontent & Hrw & _).
    + left. reflexivity.
    + reflexivity.
    + reflexivity.
    + discriminate.
    + repeat constructor. exists [("path", VStr "/c")]. split; [reflexivity|].
      right. exists "/c". reflexivity.
    + exists fields', es'. auto.
Defined.

Example fix_paths_record :
  _fix_paths (VDict [("name", VStr "b"); ("path", VStr "a/b"); ("type", VStr "file")])
             "mixed/space1"
  = Ok (VDict [("name", VStr "b"); ("path", VStr "mixed/space1/a/b"); ("type", VStr "file")]).
Proof. reflexivity. Qed.

Example fix_paths_listing :
  _fix_paths
    (VDict [("path", VStr ""); ("type", VStr "directory");
            ("content", VList [VDict [("path", VStr "/c"); ("type", VStr "directory");
                                      ("content", VList [VDict [("path", VStr "c/d")]])]])])
    "mixed/space1"
  = Ok (VDict [("path", VStr "mixed/space1/"); ("type", VStr "directory");
               ("content", VList [VDict [("path", VStr "mixed/space1/c");
                                         ("type", VStr "directory");
                                         ("content", VList [VDict [("path", VStr "c/d")]])]])]).
Proof. reflexivity. Qed.

Example fix_paths_scalar : _fix_paths (VBool true) "mixed/space1" = Ok (VBool true).
Proof. reflexivity. Qed.

(** ** Construction *)

Lemma size_names_le (l : list string) : (size (list_to_set l : gset string) <= length l)%nat.
Proof.
  induction l as [|x l IH]; [done|].
  rewrite list_to_set_cons. simpl.
  destruct (decide (x ∈ (list_to_set l : gset string))) as [Hin|Hout].
  - rewrite subseteq_union_1_L by by apply singleton_subseteq_l. lia.
  - rewrite size_union by by apply disjoint_singleton_l.
    rewrite size_singleton. lia.
Qed.

Lemma size_names_nodup (l : list string) :
  size (list_to_set l : gset string) = length l <-> NoDup l.
Proof.
  split; [|apply size_list_to_set].
  induction l as [|x l IH]; [constructor|].
  rewrite list_to_set_cons. simpl.
  destruct (decide (x ∈ (list_to_set l : gset string))) as [Hin|Hout].
  - rewrite subseteq_union_1_L by by apply singleton_subseteq_l.
    pose proof (size_names_le l). lia.
  - rewrite size_union by by apply disjoint_singleton_l.
    rewrite size_singleton. intros Hsize.
    constructor; [by rewrite <- (elem_of_list_to_set (C:=gset string))|]. apply IH. lia.
Qed.

Lemma setattrs_truthy (man : backend) (c : dict value) :
  (if truthy (VDict c) then setattrs man c else man) = setattrs man c.
Proof. by destruct c. Qed.

Section ConstructionFacts.

Variable importable : string -> bool.

Lemma mount_all_ok (scheme : list MountSpec) :
  forall managers created,
    Forall (fun spec => importable (spec_class spec) = true) scheme ->
    NoDup (root <$> scheme) ->
    exists managers' created',
      mount_all importable scheme managers created = (created ++ created', Ok managers')
      /\ (forall i spec, scheme !! i = Some spec ->
            dict_get (root spec) managers' = Some (instance (length created + i) spec)
            /\ created' !! i = Some (instance (length created + i) spec))
      /\ length created' = length scheme
      /\ (forall k, k ∉ root <$> scheme -> dict_get k managers' = dict_get k managers).
Proof.
  induction scheme as [|spec rest IH]; intros managers created Himp Hnodup.
  - exists managers, []. rewrite app_nil_r. by split_and!.
  - apply Forall_cons in Himp as [Hspec Himp].
    rewrite fmap_cons in Hnodup. apply NoDup_cons in Hnodup as [Hfresh Hnodup].
    cbn [mount_all]. rewrite Hspec, setattrs_truthy. fold (instance (length created) spec).
    destruct (IH (dict_set (root spec) (instance (length created) spec) managers)
                 (created ++ [instance (length created) spec]) Himp Hnodup)
      as (managers' & created' & Hrun & Hget & Hlen & Hkeep).
    exists managers', (instance (length created) spec :: created').
    rewrite Hrun, <- app_assoc. simpl. split_and!; [done|..].
    + intros [|i] spec0 Hi; simpl in Hi.
      * injection Hi as <-. rewrite Nat.add_0_r.
        by rewrite Hkeep, dict_get_set_eq.
      * destruct (Hget i spec0 Hi) as [Hm Hc].
        rewrite length_app in Hm, Hc. simpl in Hm, Hc.
        by replace (length created + S i)%nat with (length created + 1 + i)%nat by lia.
    + by rewrite Hlen.
    + intros k Hk. apply not_elem_of_cons in Hk as [Hne Hk].
      rewrite Hkeep by done. by apply dict_get_set_ne.
Qed.

(** C5: a scheme that names a mount point twice makes [__init__] raise
    before any manager is instantiated; a scheme with distinct names, every
    class of which can be imported, gives a router whose table maps each
    name to the manager instantiated for it. *)
Theorem init_mounts (mixed : string) (scheme : list MountSpec) :
  (~ NoDup (root <$> scheme) ->
   __init__ importable mixed scheme = ([], Raise (ValueError duplicate_mount_msg)))
  /\ (NoDup (root <$> scheme) ->
      Forall (fun spec => importable (spec_class spec) = true) scheme ->
      exists self created,
        __init__ importable mixed scheme = (created, Ok self)
        /\ mixed_path self = mixed
        /\ length created = length scheme
        /\ forall i spec, scheme !! i = Some spec ->
             dict_get (root spec) (managers self) = Some (instance i spec)
             /\ created !! i = Some (instance i spec)).
Proof.
  unfold __init__. split.
  - intros Hdup.
    destruct (Nat.eqb_spec (size (list_to_set (root <$> scheme) : gset string))
                (length scheme)) as [Heq|]; [|done].
    rewrite <- (length_fmap root) in Heq. by apply size_names_nodup in Heq.
  - intros Hnodup Himp.
    pose proof (proj2 (size_names_nodup _) Hnodup) as Hsize.
    rewrite length_fmap in Hsize. rewrite Hsize, Nat.eqb_refl. simpl.
    destruct (mount_all_ok scheme [] [] Himp Hnodup)
      as (managers' & created' & Hrun & Hget & Hlen & _).
    rewrite Hrun. simpl. eexists _, created'. split_and!; done.
Qed.

End ConstructionFacts.

Lemma init_mounts_witness :
  __init__ (fun _ => true) "mixed" (scheme0 ++ scheme0)
  = ([], Raise (ValueError duplicate_mount_msg))
  /\ exists self created,
       __init__ (fun _ => true) "mixed" scheme0 = (created, Ok self)
       /\ mixed_path self = "mixed"
       /\ length created = length scheme0
       /\ forall i spec, scheme0 !! i = Some spec ->
            dict_get (root spec) (managers self) = Some (instance i spec)
            /\ created !! i = Some (instance i spec).
Proof.
  split.
  - apply (proj1 (init_mounts (fun _ => true) "mixed" (scheme0 ++ scheme0))).
    intros Hnodup. apply (bool_decide_pack _) in Hnodup. vm_compute in Hnodup.
    exact (Is_true_false_2 _ eq_refl Hnodup).
  - apply (proj2 (init_mounts (fun _ => true) "mixed" scheme0)).
    + apply (bool_decide_unpack _). vm_compute. exact I.
    + repeat constructor.
Defined.

Example init_duplicate :
  __init__ (fun _ => true) "mixed" (scheme0 ++ scheme0)
  = ([], Raise (ValueError duplicate_mount_msg)).
Proof. vm_compute. reflexivity. Qed.

Example init_import_error :
  __init__ (fun name => String.eqb name onedata) "mixed"
    (scheme0 ++ [ {| root := "s3"; spec_class := "s3contents.S3ContentsManager"; config := [] |} ])
  = ([space1; space2], Raise (ImportError "s3contents.S3ContentsManager")).
Proof. vm_compute. reflexivity. Qed.

(** ** The listing of the bare prefix *)

Lemma scan_times (gt : bool) (t : Z) (times : list Z) :
  exists best,
    scan (fun cur item => if gt then value_lt cur item else value_lt item cur)
         (VTime t) (VTime <$> times) = Ok (VTime best)
    /\ best ∈ t :: times
    /\ forall x, x ∈ t :: times -> if gt then x <= best else best <= x.
Proof.
  revert t. induction times as [|u times IH]; intros t.
  - exists t. split_and!; [done|by left|].
    intros x ->%list_elem_of_singleton. destruct gt; lia.
  - rewrite fmap_cons. cbn [scan].
    assert ((if gt then value_lt (VTime t) (VTime u) else value_lt (VTime u) (VTime t))
            = Some (if gt then t <? u else u <? t)) as -> by by destruct gt.
    destruct (if gt then t <? u else u <? t) eqn:Hcmp.
    + destruct (IH u) as (best & Hscan & Hin & Hbest).
      exists best. split_and!; [done|by right|].
      assert (u ∈ u :: times) as Hu by by left.
      apply Hbest in Hu.
      intros x [->|Hx]%elem_of_cons; [|by apply Hbest].
      destruct gt; lia.
    + destruct (IH t) as (best & Hscan & Hin & Hbest).
      assert (t ∈ t :: times) as Ht by by left.
      apply Hbest in Ht.
      exists best. split_and!; [done| |].
      * apply elem_of_cons in Hin as [->|Hin]; [by left|by do 2 right].
      * intros x [->|[->|Hx]%elem_of_cons]%elem_of_cons.
        -- done.
        -- destruct gt; lia.
        -- apply Hbest. by right.
Qed.

(** On datetimes [max] and [min] are the greatest and the least. *)
Lemma py_max_times (times : list Z) :
  times <> [] ->
  exists newest, py_max (VTime <$> times) = Ok (VTime newest)
                 /\ newest ∈ times /\ forall t, t ∈ times -> t <= newest.
Proof.
  destruct times as [|t times]; [done|]. intros _. apply (scan_times true).
Qed.

Lemma py_min_times (times : list Z) :
  times <> [] ->
  exists oldest, py_min (VTime <$> times) = Ok (VTime oldest)
                 /\ oldest ∈ times /\ forall t, t ∈ times -> oldest <= t.
Proof.
  destruct times as [|t times]; [done|]. intros _. apply (scan_times false).
Qed.

Section Aggregate.

Variable respond : call -> result value.
Variable self : Self.
Variable kw : kwargs.

Lemma collect_mount_run content lm item log :
  collect_mount respond self kw (content, lm) item log
  = (log ++ [fetch_call kw item.2],
     Ok (content ++ (VDict <$> option_list (listed respond self kw item)),
         lm ++ option_list (listed respond self kw item ≫= dict_get "last_modified"))).
Proof.
  destruct item as [subpath manager].
  unfold collect_mount, try_invoke, listed, fetch_call, mbind, M_bind, mret, M_ret.
  cbn [snd fst]. f_equal.
  destruct (respond _) as [d|e]; [|by rewrite !app_nil_r].
  destruct d; try by rewrite !app_nil_r.
  cbn [result_bind setitem getitem option_bind option_list fmap list_fmap].
  destruct (dict_get "last_modified" _); [reflexivity|].
  cbn [option_list]. by rewrite app_nil_r.
Qed.

Lemma for_each_collect items : forall content lm log,
  for_each (collect_mount respond self kw) items (content, lm) log
  = (log ++ (fetch_call kw <$> items.*2),
     Ok (content ++ (VDict <$> omap (listed respond self kw) items),
         lm ++ omap (dict_get "last_modified") (omap (listed respond self kw) items))).
Proof.
  induction items as [|item items IH]; intros content lm log.
  - cbn. by rewrite !app_nil_r.
  - cbn [for_each]. unfold mbind at 1, M_bind at 1.
    rewrite collect_mount_run, IH. rewrite <- !app_assoc. f_equal.
    cbn [omap list_omap]. destruct (listed respond self kw item) as [d|]; [|done].
    cbn [option_list fmap list_fmap mbind option_bind omap list_omap app].
    by destruct (dict_get "last_modified" d).
Qed.

Lemma get_bare_prefix_run (path : string) (log : list call) :
  Str.strip sep path = mixed_path self ->
  Str.strip sep path <> "" ->
  get respond self path kw log
  = (log ++ (fetch_call kw <$> (managers self).*2),
     newest ← py_max (timestamps respond self kw);
     oldest ← py_min (timestamps respond self kw);
     Ok (VDict (dict_set "created" oldest
                  (dict_set "last_modified" newest
                     (dict_set "content" (VList (VDict <$> listing respond self kw)) (empty_root self)))))).
Proof.
  intros Hbare Hne.
  destruct (split_path_eq path) as (sentinel & listpath & _ & Hsplit).
  pose proof (root_unresolved self _ _ _ _ Hsplit (or_intror Hbare)) as Hcm.
  unfold get. rewrite (dispatch1_fallback _ _ _ _ _ _ _ _ _ Hsplit Hcm).
  assert (Nat.eqb (String.length (Str.strip sep path)) 0 = false) as ->.
  { by destruct (Str.strip sep path). }
  rewrite Hbare, String.eqb_refl.
  unfold mbind at 1, M_bind at 1. rewrite for_each_collect.
  fold (listing respond self kw). fold (timestamps respond self kw). cbn [app].
  unfold lift, mbind, M_bind, mret, M_ret, result_bind.
  destruct (py_max (timestamps respond self kw)); [|done]. 
  by destruct (py_min (timestamps respond self kw)).
Qed.

(** C7: [get] on the bare prefix answers a directory whose [last_modified]
    and [created] are the [max] and the [min] of the [last_modified] of the
    roots fetched; every entry of its content comes from a mount whose
    fetch answered, a mount whose fetch raises leaves none. *)
Theorem bare_prefix_listing (path : string) (newest oldest : value) :
  Str.strip sep path = mixed_path self ->
  Str.strip sep path <> "" ->
  py_max (timestamps respond self kw) = Ok newest ->
  py_min (timestamps respond self kw) = Ok oldest ->
  exists root,
    (forall log, get respond self path kw log
                 = (log ++ (fetch_call kw <$> (managers self).*2), Ok (VDict root)))
    /\ dict_get "last_modified" root = Some newest
    /\ dict_get "created" root = Some oldest
    /\ dict_get "content" root = Some (VList (VDict <$> listing respond self kw))
    /\ (forall entry, entry ∈ listing respond self kw ->
          exists name man d,
            (name, man) ∈ managers self
            /\ respond (fetch_call kw man) = Ok (VDict d)
            /\ entry = dict_set "path" (VStr (os_path_join (mixed_path self) name))
                         (dict_set "name" (VStr name) (dict_set "content" VNone d)))
    /\ (forall name man e,
          (name, man) ∈ managers self ->
          respond (fetch_call kw man) = Raise e ->
          listed respond self kw (name, man) = None).
Proof.
  intros Hbare Hne Hmax Hmin.
  eexists. split_and!.
  - intros log. rewrite get_bare_prefix_run by done. by rewrite Hmax, Hmin.
  - by rewrite dict_get_set_ne, dict_get_set_eq.
  - by rewrite dict_get_set_eq.
  - do 2 (rewrite dict_get_set_ne by done). by rewrite dict_get_set_eq.
  - intros entry ([name man] & Hin & Hentry)%list_elem_of_omap.
    unfold listed in Hentry. cbn [fst snd] in Hentry.
    destruct (respond (fetch_call kw man)) as [d|] eqn:Hfetch; [|done].
    destruct d; try done. injection Hentry as <-. by eexists _, _, _.
  - intros name man e _ Hraise. unfold listed. cbn [snd]. by rewrite Hraise.
Qed.

(** C10: when the fetch of every mount raises, and so when nothing is
    mounted, [get] on the bare prefix raises the [ValueError] of [max] on an
    empty list. *)
Theorem bare_prefix_no_mount (path : string) :
  Str.strip sep path = mixed_path self ->
  Str.strip sep path <> "" ->
  Forall (fun item => exists e, respond (fetch_call kw item.2) = Raise e) (managers self) ->
  forall log, get respond self path kw log
              = (log ++ (fetch_call kw <$> (managers self).*2),
                 Raise (ValueError empty_max_msg)).
Proof.
  intros Hbare Hne Hall log. rewrite get_bare_prefix_run by done.
  assert (listing respond self kw = []) as Hnone.
  { unfold listing. induction Hall as [|item items (e & He) _ IH]; [done|].
    cbn [omap list_omap]. unfold listed at 1. by rewrite He. }
  unfold timestamps. by rewrite Hnone.
Qed.

End Aggregate.

Lemma bare_prefix_listing_witness :
  (exists root,
     (forall log, get (answer_roots 100 (Ok (root_model 200))) self0 "/mixed/" [] log
                  = (log ++ [fetch_call [] space1; fetch_call [] space2], Ok (VDict root)))
     /\ dict_get "last_modified" root = Some (VTime 200)
     /\ dict_get "created" root = Some (VTime 100))
  /\ (exists root,
        (forall log, get (answer_roots 100 (Raise (HTTPError 503))) self0 "/mixed/" [] log
                     = (log ++ [fetch_call [] space1; fetch_call [] space2], Ok (VDict root)))
        /\ dict_get "last_modified" root = Some (VTime 100)
        /\ dict_get "content" root
           = Some (VList (VDict <$> listing (answer_roots 100 (Raise (HTTPError 503)))
                                      self0 []))
        /\ length (listing (answer_roots 100 (Raise (HTTPError 503))) self0 []) = 1%nat).
Proof.
  split.
  - destruct (bare_prefix_listing (answer_roots 100 (Ok (root_model 200))) self0 []
                "/mixed/" (VTime 200) (VTime 100))
      as (root & Hrun & Hnew & Hold & _); [reflexivity|discriminate|reflexivity..|].
    exists root. auto.
  - destruct (bare_prefix_listing (answer_roots 100 (Raise (HTTPError 503))) self0 []
                "/mixed/" (VTime 100) (VTime 100))
      as (root & Hrun & Hnew & Hold & Hcontent & _);
      [reflexivity|discriminate|reflexivity..|].
    exists root. auto.
Defined.

Lemma bare_prefix_no_mount_witness :
  (forall log,
     get (fun _ => Raise (HTTPError 503)) self0 "mixed" [] log
     = (log ++ [fetch_call [] space1; fetch_call [] space2],
        Raise (ValueError empty_max_msg)))
  /\ (forall log,
        get (answer_roots 1 (Ok VNone)) {| mixed_path := "mixed"; managers := [] |}
          "mixed" [] log
        = (log ++ [], Raise (ValueError empty_max_msg))).
Proof.
  split.
  - apply (bare_prefix_no_mount (fun _ => Raise (HTTPError 503)) self0 [] "mixed");
      [reflexivity|discriminate|].
    repeat constructor; by exists (HTTPError 503).
  - apply (bare_prefix_no_mount (answer_roots 1 (Ok VNone))
             {| mixed_path := "mixed"; managers := [] |} [] "mixed");
      [reflexivity|discriminate|constructor].
Defined.

Example bare_prefix_run :
  get (answer_roots 100 (Ok (root_model 200))) self0 "mixed" [] []
  = ([fetch_call [] space1; fetch_call [] space2],
     Ok (VDict
           [("type", VStr "directory"); ("name", VStr "mixed"); ("path", VStr "mixed");
            ("content",
              VList [VDict [("name", VStr "space1"); ("path", VStr "mixed/space1");
                            ("type", VStr "directory"); ("content", VNone);
                            ("last_modified", VTime 100); ("created", VTime 100)];
                     VDict [("name", VStr "space2"); ("path", VStr "mixed/space2");
                            ("type", VStr "directory"); ("content", VNone);
                            ("last_modified", VTime 200); ("created", VTime 200)]]);
            ("last_modified", VTime 200); ("created", VTime 100);
            ("format", VStr "json"); ("mimetype", VNone); ("size", VNone);
            ("writable", VBool false)])).
Proof. reflexivity. Qed.

(** A root without [last_modified] is listed but leaves no timestamp. *)
Example bare_prefix_without_timestamp :
  get (fun _ => Ok (VDict [("name", VStr "")]))
      {| mixed_path := "mixed"; managers := [("space1", space1)] |} "mixed" [] []
  = ([fetch_call [] space1], Raise (ValueError empty_max_msg)).
Proof. reflexivity. Qed.

Example root_listing_run :
  get (fun _ => Ok (root_model 5)) self0 "/" [] []
  = ([Call Default "get" [VStr "/"] []],
     Ok (VDict [("name", VStr ""); ("path", VStr ""); ("type", VStr "directory");
                ("content", VList [VDict [("name", VStr "a.txt"); ("path", VStr "a.txt")];
                                   VDict [("type", VStr "directory");
                                          ("name", VStr "mixed");
                                          ("path", VStr "mixed")]]);
                ("last_modified", VTime 5); ("created", VTime 5)])).
Proof. reflexivity. Qed.

(** * Further properties *)

(** ** Stripping and splitting *)

Lemma lstrip_id (s : string) : Str.startswith s sep = false -> Str.lstrip sep s = s.
Proof.
  rewrite startswith_sep. destruct s as [|c s]; [done|].
  cbn [Str.lstrip]. rewrite mem_sep. by intros ->.
Qed.

Lemma rstrip_id (s : string) :
  Str.endswith_char s sep_char = false -> Str.rstrip sep s = s.
Proof.
  induction s as [|c s IH]; [done|].
  cbn [Str.rstrip Str.endswith_char]. rewrite mem_sep.
  destruct s as [|d s].
  - cbn [Str.rstrip]. by intros ->.
  - intros H. by rewrite (IH H).
Qed.

Lemma strip_idem (p : string) : Str.strip sep (Str.strip sep p) = Str.strip sep p.
Proof.
  unfold Str.strip at 1.
  rewrite (lstrip_id _ (strip_no_leading p)).
  apply rstrip_id, strip_no_trailing.
Qed.

Lemma split_path_strip (p : string) : _split_path (Str.strip sep p) = _split_path p.
Proof. unfold _split_path. by rewrite strip_idem. Qed.

Lemma has_sep_cons (c : ascii) (s : string) :
  Ascii.eqb c sep_char = false -> has_sep (String c s) = has_sep s.
Proof.
  intros Hc. unfold has_sep. cbn [Str.mem]. rewrite Ascii.eqb_sym in Hc. by rewrite Hc.
Qed.

Lemma split_clean (s : string) :
  Forall (fun piece => has_sep piece = false) (Str.split sep_char s).
Proof.
  induction s as [|c s IH]; [by repeat constructor|].
  cbn [Str.split]. destruct (Ascii.eqb c sep_char) eqn:Hc.
  - by constructor.
  - destruct (Str.split sep_char s) as [|piece pieces].
    + constructor; [by rewrite has_sep_cons|constructor].
    + apply Forall_cons in IH as [Hpiece Hrest]. constructor; [|done].
      by rewrite has_sep_cons.
Qed.

Lemma has_sep_append (a b : string) : has_sep (a +:+ b) = has_sep a || has_sep b.
Proof.
  unfold has_sep. induction a as [|c a IH]; [done|].
  rewrite append_cons. cbn [Str.mem]. by destruct (Ascii.eqb sep_char c).
Qed.

Lemma split_clean_id (a : string) :
  has_sep a = false -> Str.split sep_char a = [a].
Proof.
  induction a as [|c a IH]; [done|]. intros Ha.
  assert (Ascii.eqb c sep_char = false) as Hc.
  { unfold has_sep in Ha. cbn [Str.mem] in Ha. rewrite Ascii.eqb_sym.
    by destruct (Ascii.eqb sep_char c). }
  rewrite has_sep_cons in Ha by done.
  cbn [Str.split]. by rewrite Hc, IH.
Qed.

Lemma split_append_sep (a b : string) :
  has_sep a = false ->
  Str.split sep_char (a +:+ sep +:+ b) = a :: Str.split sep_char b.
Proof.
  induction a as [|c a IH]; intros Ha.
  - rewrite append_nil. reflexivity.
  - assert (Ascii.eqb c sep_char = false) as Hc.
    { unfold has_sep in Ha. cbn [Str.mem] in Ha. rewrite Ascii.eqb_sym.
      by destruct (Ascii.eqb sep_char c). }
    rewrite has_sep_cons in Ha by done.
    rewrite append_cons. cbn [Str.split]. by rewrite Hc, IH.
Qed.

Lemma split_join (l : list string) :
  l <> [] ->
  Forall (fun piece => has_sep piece = false) l ->
  Str.split sep_char (Str.join sep l) = l.
Proof.
  induction l as [|x l IH]; [done|]. intros _ Hall.
  apply Forall_cons in Hall as [Hx Hl].
  destruct l as [|y l]; [by apply split_clean_id|].
  change (Str.join sep (x :: y :: l)) with (x +:+ sep +:+ Str.join sep (y :: l)).
  rewrite split_append_sep by done. by rewrite IH.
Qed.

Lemma clean_no_trailing (s : string) :
  has_sep s = false -> Str.endswith_char s sep_char = false.
Proof.
  induction s as [|c s IH]; [done|]. intros Hs.
  assert (Ascii.eqb c sep_char = false) as Hc.
  { unfold has_sep in Hs. cbn [Str.mem] in Hs. rewrite Ascii.eqb_sym.
    by destruct (Ascii.eqb sep_char c). }
  rewrite has_sep_cons in Hs by done.
  cbn [Str.endswith_char]. destruct s; [done|by apply IH].
Qed.

Lemma endswith_append (a b : string) (c : ascii) :
  b <> EmptyString -> Str.endswith_char (a +:+ b) c = Str.endswith_char b c.
Proof.
  intros Hb. induction a as [|d a IH]; [done|].
  rewrite append_cons. cbn [Str.endswith_char].
  destruct (a +:+ b) eqn:E; [|done].
  destruct a; [by rewrite append_nil in E|by rewrite append_cons in E].
Qed.

Lemma join_no_trailing (l : list string) :
  Forall (fun piece => has_sep piece = false) l ->
  last l <> Some EmptyString ->
  Str.endswith_char (Str.join sep l) sep_char = false.
Proof.
  induction l as [|x l IH]; [done|]. intros Hall Hlast.
  apply Forall_cons in Hall as [Hx Hl].
  destruct l as [|y l]; [by apply clean_no_trailing|].
  change (Str.join sep (x :: y :: l)) with (x +:+ sep +:+ Str.join sep (y :: l)).
  rewrite <- append_assoc.
  destruct (Str.join sep (y :: l)) as [|c j] eqn:Hj.
  - destruct l as [|z l].
    + simpl in Hj. subst y. by destruct Hlast.
    + change (Str.join sep (y :: z :: l)) with (y +:+ sep +:+ Str.join sep (z :: l)) in Hj.
      by destruct y.
  - rewrite endswith_append by done. by apply IH.
Qed.

Lemma join_no_leading (x : string) (l : list string) :
  has_sep x = false -> x <> EmptyString ->
  Str.startswith (Str.join sep (x :: l)) sep = false.
Proof.
  intros Hx Hne. destruct x as [|c x]; [done|].
  assert (Ascii.eqb c sep_char = false) as Hc.
  { unfold has_sep in Hx. cbn [Str.mem] in Hx. rewrite Ascii.eqb_sym.
    by destruct (Ascii.eqb sep_char c). }
  rewrite startswith_sep.
  destruct l as [|y l]; [done|].
  change (Str.join sep (String c x :: y :: l))
    with (String c x +:+ sep +:+ Str.join sep (y :: l)).
  by rewrite append_cons.
Qed.

Lemma split_path_joined (sentinel : string) (rest : list string) :
  Forall (fun piece => has_sep piece = false) (sentinel :: rest) ->
  sentinel <> EmptyString ->
  last (sentinel :: rest) <> Some EmptyString ->
  _split_path (Str.join sep (sentinel :: rest))
  = Some (sentinel, rest, Str.join sep (sentinel :: rest)).
Proof.
  intros Hall Hne Hlast.
  assert (Str.strip sep (Str.join sep (sentinel :: rest)) = Str.join sep (sentinel :: rest))
    as Hstrip.
  { unfold Str.strip. rewrite lstrip_id.
    - by apply rstrip_id, join_no_trailing.
    - apply join_no_leading; [|done]. by apply Forall_cons in Hall as [? _]. }
  unfold _split_path. rewrite Hstrip, split_join by done. reflexivity.
Qed.

(** X1: a path joined from a non-empty sentinel and segments that hold no
    separator, the last of them non-empty, splits back into them. *)
Theorem split_path_of_join (sentinel : string) (rest : list string) :
  Forall (fun piece => has_sep piece = false) (sentinel :: rest) ->
  sentinel <> EmptyString ->
  last (sentinel :: rest) <> Some EmptyString ->
  _split_path (Str.join sep (sentinel :: rest))
  = Some (sentinel, rest, Str.join sep (sentinel :: rest)).
Proof. apply split_path_joined. Qed.

Lemma split_path_of_join_witness :
  _split_path (Str.join sep ["mixed"; "space1"; ""; "b"])
  = Some ("mixed", ["space1"; ""; "b"], Str.join sep ["mixed"; "space1"; ""; "b"]).
Proof.
  apply (split_path_of_join "mixed" ["space1"; ""; "b"]).
  - repeat constructor.
  - discriminate.
  - discriminate.
Defined.

(** X2: the sentinel and the segments [_split_path] returns hold no
    separator, and there are no segments exactly when the stripped path holds
    none. *)
Theorem split_path_segments (p : string) :
  exists sentinel rest,
    _split_path p = Some (sentinel, rest, Str.strip sep p)
    /\ Forall (fun piece => has_sep piece = false) (sentinel :: rest)
    /\ (rest = [] <-> has_sep (Str.strip sep p) = false).
Proof.
  destruct (split_path_eq p) as (sentinel & rest & Hsplit & Heq).
  exists sentinel, rest. split; [done|].
  pose proof (split_clean (Str.strip sep p)) as Hclean. rewrite Hsplit in Hclean.
  split; [done|].
  pose proof (join_split (Str.strip sep p)) as Hjoin. rewrite Hsplit in Hjoin.
  rewrite <- Hjoin. split.
  - intros ->. by apply Forall_cons in Hclean as [? _].
  - destruct rest as [|y rest]; [done|].
    change (Str.join sep (sentinel :: y :: rest))
      with (sentinel +:+ sep +:+ Str.join sep (y :: rest)).
    rewrite !has_sep_append. unfold has_sep at 2. simpl Str.mem.
    by rewrite orb_true_r.
Qed.

Section MoreDispatch.

Variable respond : call -> result value.

(** X3: the wrapped operations do not tell a path from the same path with
    separators added or removed at its two ends. *)
Theorem dispatch_ignores_outer_separators (self : Self) (path : string)
    (kw : kwargs) (other : value) :
  dir_exists respond self path = dir_exists respond self (Str.strip sep path)
  /\ is_hidden respond self path = is_hidden respond self (Str.strip sep path)
  /\ file_exists respond self path = file_exists respond self (Str.strip sep path)
  /\ exists_ respond self path = exists_ respond self (Str.strip sep path)
  /\ get respond self path kw = get respond self (Str.strip sep path) kw
  /\ save respond self other path = save respond self other (Str.strip sep path)
  /\ delete respond self path = delete respond self (Str.strip sep path)
  /\ create_checkpoint respond self path
     = create_checkpoint respond self (Str.strip sep path)
  /\ list_checkpoints respond self path
     = list_checkpoints respond self (Str.strip sep path)
  /\ restore_checkpoint respond self other path
     = restore_checkpoint respond self other (Str.strip sep path)
  /\ delete_checkpoint respond self other path
     = delete_checkpoint respond self other (Str.strip sep path).
Proof.
  unfold dir_exists, is_hidden, file_exists, exists_, get, save, delete,
    create_checkpoint, list_checkpoints, restore_checkpoint, delete_checkpoint,
    path_dispatch1, path_dispatch2, path_dispatch_kwarg, split_path.
  rewrite !split_path_strip. by split_and!.
Qed.

(** The shape of a path that is routed to a manager. *)
Lemma resolve_some (self : Self) (path : string) (man : backend) :
  resolve self path = Some man ->
  exists mount inner,
    _split_path path = Some (mixed_path self, mount :: inner, Str.strip sep path)
    /\ Str.strip sep path = Str.join sep (mixed_path self :: mount :: inner)
    /\ has_sep (mixed_path self) = false
    /\ has_sep mount = false
    /\ dict_get mount (managers self) = Some man.
Proof.
  unfold resolve. intros Hres.
  destruct (split_path_eq path) as (sentinel & rest & Hsplit & Heq).
  rewrite Heq in Hres.
  apply get_cm_some in Hres as (-> & mount & inner & -> & Hmount).
  pose proof (split_clean (Str.strip sep path)) as Hclean. rewrite Hsplit in Hclean.
  apply Forall_cons in Hclean as [Hmixed Hclean].
  apply Forall_cons in Hclean as [Hm _].
  exists mount, inner. split_and!; try done.
  by rewrite <- Hsplit, join_split.
Qed.

(** X4: a manager is reached only through a prefix without separator and
    under a mount name without separator; with an empty prefix, or one that
    holds a separator, no path is routed to any manager. *)
Theorem unreachable_mounts (self : Self) :
  (forall path man,
     resolve self path = Some man ->
     exists mount, has_sep mount = false /\ dict_get mount (managers self) = Some man)
  /\ (mixed_path self = EmptyString \/ has_sep (mixed_path self) = true ->
      forall path, resolve self path = None).
Proof.
  split.
  - intros path man (mount & inner & _ & _ & _ & Hm & Hget)%resolve_some. eauto.
  - intros Hbad path. destruct (resolve self path) as [man|] eqn:Hres; [|done].
    apply resolve_some in Hres as (mount & inner & _ & Hjoin & Hclean & _).
    destruct Hbad as [Hempty|Hsep]; [|congruence].
    pose proof (strip_no_leading path) as Hlead.
    rewrite Hjoin, Hempty in Hlead. done.
Qed.

End MoreDispatch.

Lemma unreachable_mounts_witness :
  (exists mount, has_sep mount = false /\ dict_get mount (managers self0) = Some space2)
  /\ resolve {| mixed_path := "data/hub"; managers := managers self0 |}
       "data/hub/space1/a.txt" = None.
Proof.
  split.
  - apply (proj1 (unreachable_mounts self0) "/mixed/space2/a.txt" space2). reflexivity.
  - apply (proj2 (unreachable_mounts
                    {| mixed_path := "data/hub"; managers := managers self0 |})).
    right. reflexivity.
Defined.

(** ** Mounted paths *)


Lemma os_join_plain (a b : string) :
  a <> EmptyString ->
  Str.endswith_char a sep_char = false ->
  Str.startswith b sep = false ->
  os_path_join a b = a +:+ sep +:+ b.
Proof.
  intros Ha Hend Hb. unfold os_path_join. rewrite Hb, Hend.
  by destruct a.
Qed.



Section Mounted.

Variable respond : call -> result value.

(** X5: on a path routed to a manager every wrapped operation calls the
    method of its own name on that manager, with the segments after the mount
    name joined again in the place of the path, and hands the answer to
    [_fix_paths] under the prefix joined with the mount name. *)
Theorem mounted_dispatch (self : Self) (path : string) (kw : kwargs) (other : value)
    (man : backend) :
  resolve self path = Some man ->
  exists mount inner,
    Str.strip sep path = Str.join sep (mixed_path self :: mount :: inner)
    /\ dict_get mount (managers self) = Some man
    /\ let base := os_path_join (mixed_path self) mount in
       let p := VStr (Str.join sep inner) in
       forwards_fixed respond (dir_exists respond self path)
         (Call (Mounted man) "dir_exists" [p] []) base
       /\ forwards_fixed respond (is_hidden respond self path)
            (Call (Mounted man) "is_hidden" [p] []) base
       /\ forwards_fixed respond (file_exists respond self path)
            (Call (Mounted man) "file_exists" [] [("path", p)]) base
       /\ forwards_fixed respond (exists_ respond self path)
            (Call (Mounted man) "exists" [p] []) base
       /\ forwards_fixed respond (get respond self path kw)
            (Call (Mounted man) "get" [p] kw) base
       /\ forwards_fixed respond (save respond self other path)
            (Call (Mounted man) "save" [other; p] []) base
       /\ forwards_fixed respond (delete respond self path)
            (Call (Mounted man) "delete" [p] []) base
       /\ forwards_fixed respond (create_checkpoint respond self path)
            (Call (Mounted man) "create_checkpoint" [p] []) base
       /\ forwards_fixed respond (list_checkpoints respond self path)
            (Call (Mounted man) "list_checkpoints" [p] []) base
       /\ forwards_fixed respond (restore_checkpoint respond self other path)
            (Call (Mounted man) "restore_checkpoint" [other; p] []) base
       /\ forwards_fixed respond (delete_checkpoint respond self other path)
            (Call (Mounted man) "delete_checkpoint" [other; p] []) base.
Proof.
  intros Hres.
  destruct (resolve_some self path man Hres) as (mount & inner & Hsplit & Hjoin & _ & _ & Hm).
  unfold resolve in Hres. rewrite Hsplit in Hres.
  exists mount, inner. split; [done|]. split; [done|]. cbv zeta.
  split_and!;
    first [ by eapply dispatch1_mounted
          | by eapply dispatch2_mounted
          | by eapply dispatch_kwarg_mounted ].
Qed.


End Mounted.

Lemma mounted_dispatch_witness :
  exists mount inner,
    Str.strip sep "/mixed/space2/a/b.txt" = Str.join sep ("mixed" :: mount :: inner)
    /\ dict_get mount (managers self0) = Some space2
    /\ forwards_fixed (answer_roots 1 (Ok VNone))
         (delete (answer_roots 1 (Ok VNone)) self0 "/mixed/space2/a/b.txt")
         (Call (Mounted space2) "delete" [VStr (Str.join sep inner)] [])
         (os_path_join "mixed" mount).
Proof.
  destruct (mounted_dispatch (answer_roots 1 (Ok VNone)) self0 "/mixed/space2/a/b.txt"
              [] VNone space2 eq_refl)
    as (mount & inner & Hjoin & Hm & H).
  exists mount, inner. split_and!; [exact Hjoin|exact Hm|apply H].
Defined.


(** ** Calls made *)

Section Calls.

Variable respond : call -> result value.

Lemma one_call_invoke (c : call) : at_most_one_call (invoke respond c).
Proof. intros log. exists (respond c). right. by exists c. Qed.

Lemma one_call_ret {A} (a : A) : at_most_one_call (mret a : M A).
Proof. intros log. exists (Ok a). by left. Qed.

Lemma one_call_raise {A} (e : exn) : at_most_one_call (raise e : M A).
Proof. intros log. exists (Raise e). by left. Qed.

Lemma one_call_fixed (m : M value) (c : call) (base : string) :
  forwards_fixed respond m c base -> at_most_one_call m.
Proof. intros H log. eexists. right. exists c. apply H. Qed.

Lemma one_call_dispatch1 name method self path kw :
  (forall q, at_most_one_call (method self q kw)) ->
  at_most_one_call (path_dispatch1 respond name method self path kw).
Proof.
  intros Hmethod.
  destruct (split_path_eq path) as (sentinel & listpath & _ & Hsplit).
  destruct (_get_cm self sentinel listpath) as [man|] eqn:Hcm.
  - destruct (get_cm_some _ _ _ _ Hcm) as (_ & mount & inner & -> & _).
    eapply one_call_fixed. by eapply dispatch1_mounted.
  - by rewrite (dispatch1_fallback respond _ _ _ _ _ _ _ _ Hsplit Hcm).
Qed.

Lemma one_call_dispatch2 name method self other path :
  (forall q, at_most_one_call (method self other q)) ->
  at_most_one_call (path_dispatch2 respond name method self other path).
Proof.
  intros Hmethod.
  destruct (split_path_eq path) as (sentinel & listpath & _ & Hsplit).
  destruct (_get_cm self sentinel listpath) as [man|] eqn:Hcm.
  - destruct (get_cm_some _ _ _ _ Hcm) as (_ & mount & inner & -> & _).
    eapply one_call_fixed. by eapply dispatch2_mounted.
  - by rewrite (dispatch2_fallback respond _ _ _ _ _ _ _ _ Hsplit Hcm).
Qed.

Lemma one_call_dispatch_kwarg name method self path :
  (forall q, at_most_one_call (method self q)) ->
  at_most_one_call (path_dispatch_kwarg respond name method self path).
Proof.
  intros Hmethod.
  destruct (split_path_eq path) as (sentinel & listpath & _ & Hsplit).
  destruct (_get_cm self sentinel listpath) as [man|] eqn:Hcm.
  - destruct (get_cm_some _ _ _ _ Hcm) as (_ & mount & inner & -> & _).
    eapply one_call_fixed. by eapply dispatch_kwarg_mounted.
  - by rewrite (dispatch_kwarg_fallback respond _ _ _ _ _ _ _ Hsplit Hcm).
Qed.

(** What [update] does with a model it cannot read the path of. *)
Lemma update_unreadable (self : Self) (model : value) (path : string) (e : exn) :
  match model with
  | VDict fields =>
      match dict_get "path" fields with
      | None => e = KeyError "path"
      | Some (VStr _) => False
      | Some _ => e = AttributeError "strip"
      end
  | _ => e = TypeError
  end ->
  forall log, update respond self model path log = (log, Raise e).
Proof.
  intros Hbad log.
  destruct (split_path_eq path) as (sentinel & listpath & _ & Hsplit).
  unfold update, split_path, lift_opt, lift, getitem, mbind, M_bind, raise.
  rewrite Hsplit.
  destruct model; try by subst.
  destruct (dict_get "path" fields) as [v|]; [|by subst].
  destruct v; by subst.
Qed.

(** X7: apart from [get] and the two renames, an operation makes one
    delegated call at most. *)
Theorem single_delegation (self : Self) (path : string) (other : value) :
  at_most_one_call (dir_exists respond self path)
  /\ at_most_one_call (is_hidden respond self path)
  /\ at_most_one_call (file_exists respond self path)
  /\ at_most_one_call (exists_ respond self path)
  /\ at_most_one_call (save respond self other path)
  /\ at_most_one_call (update respond self other path)
  /\ at_most_one_call (delete respond self path)
  /\ at_most_one_call (create_checkpoint respond self path)
  /\ at_most_one_call (list_checkpoints respond self path)
  /\ at_most_one_call (restore_checkpoint respond self other path)
  /\ at_most_one_call (delete_checkpoint respond self other path).
Proof.
  split_and!;
    try (first [apply one_call_dispatch1 | apply one_call_dispatch2
               | apply one_call_dispatch_kwarg];
         intros q; first [apply one_call_invoke
                         | destruct (is_root self q);
                           [apply one_call_ret | apply one_call_invoke]]).
  (* update *)
  destruct other as [| | | | | |fields];
    try (intros log; exists (Raise TypeError); left;
         by apply update_unreadable).
  destruct (dict_get "path" fields) as [v|] eqn:Hp;
    [|intros log; exists (Raise (KeyError "path")); left;
      apply update_unreadable; by rewrite Hp].
  destruct v as [| | |mp| | |];
    try (intros log; exists (Raise (AttributeError "strip")); left;
         apply update_unreadable; by rewrite Hp).
  destruct (split_path_eq path) as (sentinel & listpath & _ & Hsplit).
  destruct (split_path_eq mp) as (m_sentinel & m_listpath & _ & Hmsplit).
  rewrite (update_unfold respond self _ _ _ _ _ _ _ _ _ Hp Hsplit Hmsplit). cbv zeta.
  destruct (same_object _ _); [|apply one_call_raise]. cbn [negb].
  destruct (_get_cm self sentinel listpath) as [man|] eqn:Hcm; [|apply one_call_invoke].
  destruct (get_cm_some _ _ _ _ Hcm) as (_ & mount & inner & -> & _).
  intros log. unfold lift_opt, lift, invoke, mbind, M_bind. cbn.
  destruct (respond _); eexists; right; eexists; reflexivity.
Qed.

(** X8: [update] reads the path of the model before anything else: a model
    that is no dict, has no path or has a path that is no string makes it
    raise, and nothing is called. *)
Theorem update_bad_model (self : Self) (path : string) (log : list call) :
  (forall model, (forall fields, model <> VDict fields) ->
     update respond self model path log = (log, Raise TypeError))
  /\ (forall fields, dict_get "path" fields = None ->
        update respond self (VDict fields) path log = (log, Raise (KeyError "path")))
  /\ (forall fields v, dict_get "path" fields = Some v -> (forall p, v <> VStr p) ->
        update respond self (VDict fields) path log
        = (log, Raise (AttributeError "strip"))).
Proof.
  split_and!.
  - intros model Hmodel. apply update_unreadable.
    destruct model; try done. by destruct (Hmodel fields).
  - intros fields Hnone. apply update_unreadable. by rewrite Hnone.
  - intros fields v Hv Hstr. apply update_unreadable. rewrite Hv.
    destruct v; try done. by destruct (Hstr s).
Qed.

End Calls.

(** ** The root listing and the renames *)

Section RootAndRename.

Variable respond : call -> result value.

Lemma get_root_run (self : Self) (path : string) (kw : kwargs) (log : list call) :
  Str.strip sep path = EmptyString ->
  get respond self path kw log
  = (log ++ [Call Default "get" [VStr "/"] kw],
     root ← respond (Call Default "get" [VStr "/"] kw);
     content ← getitem root "content";
     match content with
     | VList items =>
         setitem root "content" (VList (items ++ [mount_point_entry self]))
     | _ => Raise (AttributeError "append")
     end).
Proof.
  intros Hempty.
  destruct (split_path_eq path) as (sentinel & listpath & _ & Hsplit).
  pose proof (root_unresolved self _ _ _ _ Hsplit (or_introl Hempty)) as Hcm.
  unfold get. rewrite (dispatch1_fallback respond _ _ _ _ _ _ _ _ Hsplit Hcm).
  rewrite Hempty. cbn [String.length Nat.eqb].
  unfold invoke, lift, raise, mbind, M_bind, result_bind.
  destruct (respond _) as [root|e]; [|done].
  destruct (getitem root "content") as [content|e]; [|done].
  by destruct content.
Qed.

(** X9: [get] on the empty path asks the inherited manager for [/] with the
    keyword arguments it was given.  A record with a list as content comes
    back with the entry of the prefix added at the end and nothing else
    changed; a record whose content is no list, as when the caller asked for
    no content, makes [get] raise [AttributeError], one without content
    [KeyError]; what the inherited manager raises is raised. *)
Theorem get_root_listing (self : Self) (path : string) (kw : kwargs) :
  Str.strip sep path = EmptyString ->
  let c := Call Default "get" [VStr "/"] kw in
  calls_of (get respond self path kw) = [c]
  /\ (forall fields items,
        respond c = Ok (VDict fields) ->
        dict_get "content" fields = Some (VList items) ->
        outcome_of (get respond self path kw)
        = Ok (VDict (dict_set "content" (VList (items ++ [mount_point_entry self]))
                       fields)))
  /\ (forall fields v,
        respond c = Ok (VDict fields) ->
        dict_get "content" fields = Some v ->
        (forall items, v <> VList items) ->
        outcome_of (get respond self path kw) = Raise (AttributeError "append"))
  /\ (forall fields,
        respond c = Ok (VDict fields) ->
        dict_get "content" fields = None ->
        outcome_of (get respond self path kw) = Raise (KeyError "content"))
  /\ (forall e,
        respond c = Raise e -> outcome_of (get respond self path kw) = Raise e).
Proof.
  intros Hempty c. unfold calls_of, outcome_of.
  rewrite (get_root_run self path kw [] Hempty). fold c. cbn [fst snd app].
  split_and!.
  - done.
  - intros fields items -> Hcontent. cbn. by rewrite Hcontent.
  - intros fields v -> Hcontent Hlist. cbn. rewrite Hcontent.
    destruct v; try done. by destruct (Hlist items).
  - intros fields -> Hnone. cbn. by rewrite Hnone.
  - by intros e ->.
Qed.

(** X10: [rename] and [rename_file] raise, calling nothing, whenever the two
    stripped paths differ; when they are equal and no mount point bears the
    whole stripped path as its name, the inherited method gets the two paths
    as given. *)
Theorem rename_guard (self : Self) (old_path new_path : string) :
  (Str.strip sep old_path <> Str.strip sep new_path ->
   forall log,
     rename respond self old_path new_path log
     = (log, Raise (ValueError cross_rename_msg))
     /\ rename_file respond self old_path new_path log
        = (log, Raise (ValueError cross_rename_msg)))
  /\ (Str.strip sep old_path = Str.strip sep new_path ->
      dict_get (Str.strip sep new_path) (managers self) = None ->
      forwards respond (rename respond self old_path new_path)
        (Call Default "rename" [VStr old_path; VStr new_path] [])
      /\ forwards respond (rename_file respond self old_path new_path)
           (Call Default "rename_file" [VStr old_path; VStr new_path] [])).
Proof.
  split.
  - intros Hne log. split; by apply rename_differing_paths.
  - intros Heq Hnone. unfold forwards, rename, rename_file.
    rewrite !(rename_same_path respond _ _ self old_path new_path Heq Hnone).
    by split.
Qed.

End RootAndRename.

Lemma get_root_listing_witness :
  calls_of (get (fun _ => Ok (VDict [("content", VNone)])) self0 "/" [("content", VInt 0)])
  = [Call Default "get" [VStr "/"] [("content", VInt 0)]]
  /\ outcome_of (get (fun _ => Ok (VDict [("content", VNone)])) self0 "/"
                   [("content", VInt 0)])
     = Raise (AttributeError "append")
  /\ outcome_of (get (fun _ => Ok (root_model 5)) self0 "" [])
     = Ok (VDict [("name", VStr ""); ("path", VStr ""); ("type", VStr "directory");
                  ("content", VList [VDict [("name", VStr "a.txt"); ("path", VStr "a.txt")];
                                     mount_point_entry self0]);
                  ("last_modified", VTime 5); ("created", VTime 5)]).
Proof.
  split_and!.
  - apply (get_root_listing (fun _ => Ok (VDict [("content", VNone)])) self0 "/"
             [("content", VInt 0)] eq_refl).
  - apply (proj1 (proj2 (proj2 (get_root_listing
             (fun _ => Ok (VDict [("content", VNone)])) self0 "/"
             [("content", VInt 0)] eq_refl))) [("content", VNone)] VNone);
      first [reflexivity | discriminate].
  - apply (proj1 (proj2 (get_root_listing (fun _ => Ok (root_model 5)) self0 "" []
                           eq_refl))
             [("name", VStr ""); ("path", VStr ""); ("type", VStr "directory");
              ("content", VList [VDict [("name", VStr "a.txt"); ("path", VStr "a.txt")]]);
              ("last_modified", VTime 5); ("created", VTime 5)]
             [VDict [("name", VStr "a.txt"); ("path", VStr "a.txt")]]);
      reflexivity.
Defined.

Lemma rename_guard_witness :
  (forall log,
     rename (answer_roots 1 (Ok VNone)) self0 "work/a.txt" "work/b.txt" log
     = (log, Raise (ValueError cross_rename_msg))
     /\ rename_file (answer_roots 1 (Ok VNone)) self0 "work/a.txt" "work/b.txt" log
        = (log, Raise (ValueError cross_rename_msg)))
  /\ forwards (answer_roots 1 (Ok VNone))
       (rename (answer_roots 1 (Ok VNone)) self0 "/work/a.txt" "work/a.txt/")
       (Call Default "rename" [VStr "/work/a.txt"; VStr "work/a.txt/"] []).
Proof.
  split.
  - apply (proj1 (rename_guard (answer_roots 1 (Ok VNone)) self0
                    "work/a.txt" "work/b.txt")). discriminate.
  - apply (proj2 (rename_guard (answer_roots 1 (Ok VNone)) self0
                    "/work/a.txt" "work/a.txt/")); reflexivity.
Defined.

Lemma update_bad_model_witness :
  update (answer_roots 1 (Ok VNone)) self0 VNone "mixed/space1/a" []
  = ([], Raise TypeError)
  /\ update (answer_roots 1 (Ok VNone)) self0 (VDict [("name", VStr "a")])
       "mixed/space1/a" []
     = ([], Raise (KeyError "path"))
  /\ update (answer_roots 1 (Ok VNone)) self0 (VDict [("path", VNone)])
       "mixed/space1/a" []
     = ([], Raise (AttributeError "strip")).
Proof.
  split_and!.
  - apply (proj1 (update_bad_model (answer_roots 1 (Ok VNone)) self0
                    "mixed/space1/a" [])). discriminate.
  - apply (proj1 (proj2 (update_bad_model (answer_roots 1 (Ok VNone)) self0
                           "mixed/space1/a" []))). reflexivity.
  - apply (proj2 (proj2 (update_bad_model (answer_roots 1 (Ok VNone)) self0
                           "mixed/space1/a" [])) [("path", VNone)] VNone);
      first [reflexivity | discriminate].
Defined.

(** ** More on the response rewriter *)

Lemma dict_set_keys {A} (k : string) (v : A) (d : dict A) :
  dict_has k d = true -> (dict_set k v d).*1 = d.*1.
Proof.
  unfold dict_has. induction d as [|[k' v'] d IH]; [done|].
  simpl. destruct (String.eqb_spec k k') as [->|]; [done|].
  intros H. rewrite fmap_cons. f_equal. by apply IH.
Qed.

Lemma dict_set_same {A} (k : string) (v : A) (d : dict A) :
  dict_get k d = Some v -> dict_set k v d = d.
Proof.
  induction d as [|[k' v'] d IH]; [done|].
  simpl. destruct (String.eqb_spec k k') as [->|]; [by intros [= ->]|].
  intros H. by rewrite IH.
Qed.

Lemma dict_set_set {A} (k : string) (v w : A) (d : dict A) :
  dict_set k w (dict_set k v d) = dict_set k w d.
Proof.
  induction d as [|[k' v'] d IH]; simpl.
  - by rewrite String.eqb_refl.
  - destruct (String.eqb k k') eqn:E; simpl.
    + by rewrite String.eqb_refl.
    + by rewrite E, IH.
Qed.

Lemma fix_entry_keys (base_path : string) (e e' : value) :
  fix_entry base_path e = Ok e' ->
  match e, e' with
  | VDict d, VDict d' => d'.*1 = d.*1
  | _, _ => e' = e
  end.
Proof.
  unfold fix_entry. destruct e; cbn; try done.
  - destruct (Str.contains "path" s); [done|]. by intros [= <-].
  - destruct (existsb _ items); [done|]. by intros [= <-].
  - destruct (dict_has "path" fields) eqn:Hhas; [|by intros [= <-]].
    destruct (dict_get "path" fields) as [v|]; [|done]. cbn.
    destruct v; try done. intros [= <-]. by apply dict_set_keys.
Qed.

Lemma fix_entries_length (base_path : string) (es es' : list value) :
  fix_entries base_path es = Ok es' -> length es' = length es.
Proof.
  revert es'. induction es as [|e es IH]; intros es'; [by intros [= <-]|].
  cbn. destruct (fix_entry base_path e); [|done]. cbn.
  destruct (fix_entries base_path es) as [rest|]; [|done]. cbn.
  intros [= <-]. cbn. by rewrite (IH rest).
Qed.

(** X11: [_fix_paths], when it returns, gives a record back for a record,
    with the same fields in the same order, and a listing of the same length
    for a listing: it adds and drops nothing. *)
Theorem fix_paths_keeps_fields (base_path : string) (fields : dict value) (r : value) :
  _fix_paths (VDict fields) base_path = Ok r ->
  exists fields',
    r = VDict fields'
    /\ fields'.*1 = fields.*1
    /\ forall es, dict_get "content" fields = Some (VList es) ->
         exists es', dict_get "content" fields' = Some (VList es')
                     /\ length es' = length es.
Proof.
  intros Hrun.
  assert (exists fields1,
            fields1.*1 = fields.*1
            /\ dict_get "content" fields1 = dict_get "content" fields
            /\ (if match dict_get "type" fields1 with
                    | Some t => value_eqb t (VStr "directory")
                    | None => false
                    end && truthy (default VNone (dict_get "content" fields1))
                then es ← iterate (default VNone (dict_get "content" fields1));
                     es' ← fix_entries base_path es;
                     match default VNone (dict_get "content" fields1) with
                     | VList _ => Ok (VDict (dict_set "content" (VList es') fields1))
                     | _ => Ok (VDict fields1)
                     end
                else Ok (VDict fields1)) = Ok r) as (fields1 & Hkeys & Hcontent & Hstep).
  { unfold _fix_paths in Hrun.
    destruct (dict_get "path" fields) as [v|] eqn:Hpath.
    - destruct v; try done. eexists. split_and!; [| |exact Hrun].
      + apply dict_set_keys. unfold dict_has. by rewrite Hpath.
      + by rewrite dict_get_set_ne.
    - by exists fields. }
  clear Hrun. rewrite <- Hkeys, <- Hcontent. clear Hkeys Hcontent fields.
  destruct (_ && _).
  - destruct (dict_get "content" fields1) as [content|] eqn:Hc; [|done].
    cbn in Hstep.
    destruct (iterate content) as [es0|] eqn:Hit; [|done]. cbn in Hstep.
    destruct (fix_entries base_path es0) as [es'|] eqn:Hfix; [|done]. cbn in Hstep.
    destruct content as [| | | | |items|];
      try (injection Hstep as <-; exists fields1; split_and!; [done..|];
           intros es [=]).
    injection Hstep as <-. injection Hit as <-. eexists. split_and!; [done| |].
    + apply dict_set_keys. unfold dict_has. by rewrite Hc.
    + intros es [= <-]. exists es'. rewrite dict_get_set_eq. split; [done|].
      by eapply fix_entries_length.
  - injection Hstep as <-. exists fields1. split_and!; [done..|].
    intros es Hes. by exists es.
Qed.

Lemma fix_paths_keeps_fields_witness :
  exists fields' es',
    _fix_paths (VDict [("path", VStr ""); ("type", VStr "directory");
                       ("content", VList [VDict [("path", VStr "/c")]])])
               "mixed/space1"
    = Ok (VDict fields')
    /\ fields'.*1 = ["path"; "type"; "content"]
    /\ dict_get "content" fields' = Some (VList es')
    /\ length es' = 1%nat.
Proof.
  destruct (fix_paths_keeps_fields "mixed/space1"
              [("path", VStr ""); ("type", VStr "directory");
               ("content", VList [VDict [("path", VStr "/c")]])]
              (VDict [("path", VStr "mixed/space1/"); ("type", VStr "directory");
                      ("content", VList [VDict [("path", VStr "mixed/space1/c")]])])
              eq_refl)
    as (fields' & Hr & Hkeys & Hcontent).
  destruct (Hcontent _ eq_refl) as (es' & Hes & Hlen).
  exists fields', es'. injection Hr as <-. split_and!; done.
Defined.

(** X12: a record that is no listing and bears an absolute path comes back
    from [_fix_paths] as it is: the base path is not put before its path. *)
Theorem fix_paths_absolute (base_path : string) (fields : dict value) (p : string) :
  dict_get "path" fields = Some (VStr p) ->
  Str.startswith p sep = true ->
  dict_get "type" fields <> Some (VStr "directory")
  \/ truthy (default VNone (dict_get "content" fields)) = false ->
  _fix_paths (VDict fields) base_path = Ok (VDict fields).
Proof.
  intros Hp Habs Hleaf. unfold _fix_paths. rewrite Hp. cbn [mbind result_bind].
  assert (os_path_join base_path p = p) as -> by (unfold os_path_join; by rewrite Habs).
  rewrite (dict_set_same _ _ _ Hp).
  destruct Hleaf as [Htype| ->]; [|by rewrite andb_false_r].
  destruct (dict_get "type" fields) as [t|]; [|done].
  destruct t; try done. cbn [value_eqb].
  destruct (String.eqb_spec s "directory") as [->|]; done.
Qed.

Lemma fix_paths_absolute_witness :
  _fix_paths (VDict [("path", VStr "/a/b"); ("type", VStr "file")]) "mixed/space1"
  = Ok (VDict [("path", VStr "/a/b"); ("type", VStr "file")]).
Proof.
  apply (fix_paths_absolute "mixed/space1" [("path", VStr "/a/b"); ("type", VStr "file")]
           "/a/b"); [reflexivity..|].
  left. discriminate.
Defined.

(** X13: [_fix_paths] is not idempotent: on a record that is no listing, with
    a relative path and a relative base path, a second pass puts the base
    path before the path once more. *)
Theorem fix_paths_twice (base_path : string) (fields : dict value) (p : string) :
  dict_get "path" fields = Some (VStr p) ->
  Str.startswith p sep = false ->
  base_path <> EmptyString ->
  Str.startswith base_path sep = false ->
  Str.endswith_char base_path sep_char = false ->
  dict_get "type" fields <> Some (VStr "directory")
  \/ truthy (default VNone (dict_get "content" fields)) = false ->
  (once ← _fix_paths (VDict fields) base_path; _fix_paths once base_path)
  = Ok (VDict (dict_set "path"
                 (VStr (base_path +:+ sep +:+ base_path +:+ sep +:+ p)) fields))
  /\ _fix_paths (VDict fields) base_path
     = Ok (VDict (dict_set "path" (VStr (base_path +:+ sep +:+ p)) fields)).
Proof.
  intros Hp Hrel Hbase Hlead Htrail Hleaf.
  assert (forall q fs,
            dict_get "path" fs = Some (VStr q) ->
            dict_get "type" fs = dict_get "type" fields ->
            dict_get "content" fs = dict_get "content" fields ->
            _fix_paths (VDict fs) base_path
            = Ok (VDict (dict_set "path" (VStr (os_path_join base_path q)) fs)))
    as Hstep.
  { intros q fs Hq Ht Hc. unfold _fix_paths. rewrite Hq. cbn [mbind result_bind].
    rewrite !dict_get_set_ne by done. rewrite Ht, Hc.
    destruct Hleaf as [Htype| ->]; [|by rewrite andb_false_r].
    destruct (dict_get "type" fields) as [t|]; [|done].
    destruct t; try done. cbn [value_eqb].
    destruct (String.eqb_spec s "directory") as [->|]; done. }
  rewrite (Hstep p fields Hp eq_refl eq_refl). cbn [mbind result_bind].
  rewrite (os_join_plain base_path p) by done. split; [|done].
  rewrite (Hstep (base_path +:+ sep +:+ p)); cycle 1.
  - by rewrite dict_get_set_eq.
  - by rewrite dict_get_set_ne.
  - by rewrite dict_get_set_ne.
  - rewrite dict_set_set. rewrite os_join_plain; [done..|].
    rewrite startswith_sep in *. destruct base_path; [done|]. by rewrite append_cons.
Qed.

Lemma fix_paths_twice_witness :
  (once ← _fix_paths (VDict [("path", VStr "a/b")]) "mixed/space1";
   _fix_paths once "mixed/space1")
  = Ok (VDict (dict_set "path"
                 (VStr ("mixed/space1" +:+ sep +:+ "mixed/space1" +:+ sep +:+ "a/b"))
                 [("path", VStr "a/b")]))
  /\ _fix_paths (VDict [("path", VStr "a/b")]) "mixed/space1"
     = Ok (VDict (dict_set "path" (VStr ("mixed/space1" +:+ sep +:+ "a/b"))
                    [("path", VStr "a/b")])).
Proof.
  apply (fix_paths_twice "mixed/space1" [("path", VStr "a/b")] "a/b");
    first [reflexivity | discriminate | (left; discriminate)].
Defined.

(** ** More on construction *)

Lemma dict_set_fresh {A} (k : string) (v : A) (d : dict A) :
  dict_get k d = None -> dict_set k v d = d ++ [(k, v)].
Proof.
  induction d as [|[k' v'] d IH]; [done|].
  simpl. destruct (String.eqb k k'); [done|]. intros H. by rewrite IH.
Qed.

Lemma dict_get_app {A} (k : string) (d1 d2 : dict A) :
  dict_get k (d1 ++ d2)
  = match dict_get k d1 with Some v => Some v | None => dict_get k d2 end.
Proof.
  induction d1 as [|[k' v'] d1 IH]; [done|].
  simpl. by destruct (String.eqb k k').
Qed.

Lemma setattrs_identity (man : backend) (c : dict value) :
  oid (setattrs man c) = oid man /\ class (setattrs man c) = class man.
Proof.
  revert man. induction c as [|[k v] c IH]; intros man; [done|].
  unfold setattrs in *. cbn [foldl]. by destruct (IH (Backend (oid man) (class man)
                                                       (dict_set k v (attrs man)))).
Qed.


Section MoreConstruction.

Variable importable : string -> bool.

Lemma mount_all_prefix (pre : list MountSpec) :
  forall rest managers created,
    Forall (fun spec => importable (spec_class spec) = true) pre ->
    NoDup (root <$> pre) ->
    Forall (fun spec => dict_get (root spec) managers = None) pre ->
    mount_all importable (pre ++ rest) managers created
    = mount_all importable rest
        (managers ++ imap (fun i spec => (root spec, instance (length created + i) spec)) pre)
        (created ++ imap (fun i spec => instance (length created + i) spec) pre).
Proof.
  induction pre as [|spec pre IH]; intros rest managers created Himp Hnodup Hfresh.
  - cbn. by rewrite !app_nil_r.
  - apply Forall_cons in Himp as [Hspec Himp].
    rewrite fmap_cons in Hnodup. apply NoDup_cons in Hnodup as [Hnew Hnodup].
    apply Forall_cons in Hfresh as [Hroot Hfresh].
    cbn [app mount_all]. rewrite Hspec, setattrs_truthy.
    fold (instance (length created) spec).
    rewrite (dict_set_fresh _ _ _ Hroot).
    rewrite IH; [| done | done |].
    + rewrite !imap_cons, <- !app_assoc, !length_app. cbn [app length].
      rewrite Nat.add_0_r. do 2 f_equal.
      * f_equal. apply imap_ext. intros i s _. cbn. do 2 f_equal. lia.
      * f_equal. apply imap_ext. intros i s _. cbn. f_equal. lia.
    + apply Forall_forall. intros s Hs. rewrite dict_get_app.
      rewrite Forall_forall in Hfresh. rewrite (Hfresh s Hs). cbn.
      destruct (String.eqb_spec (root s) (root spec)) as [Heq|]; [|done].
      destruct Hnew. rewrite <- Heq. by apply list_elem_of_fmap_2.
Qed.

Lemma init_run (mixed : string) (scheme : list MountSpec) :
  NoDup (root <$> scheme) ->
  Forall (fun spec => importable (spec_class spec) = true) scheme ->
  __init__ importable mixed scheme
  = (imap instance scheme,
     Ok {| mixed_path := mixed;
           managers := imap (fun i spec => (root spec, instance i spec)) scheme |}).
Proof.
  intros Hnodup Himp. unfold __init__.
  pose proof (proj2 (size_names_nodup _) Hnodup) as Hsize.
  rewrite length_fmap in Hsize. rewrite Hsize, Nat.eqb_refl. cbn [negb].
  pose proof (mount_all_prefix scheme [] [] [] Himp Hnodup) as Hrun.
  rewrite app_nil_r in Hrun. rewrite Hrun; [done|].
  by apply Forall_forall.
Qed.

(** X14: with distinct mount names and importable classes [__init__] gives
    the table of managers in the order of the scheme, the manager of the
    [i]-th entry being the [i]-th object instantiated. *)
Theorem init_table (mixed : string) (scheme : list MountSpec) :
  NoDup (root <$> scheme) ->
  Forall (fun spec => importable (spec_class spec) = true) scheme ->
  exists self created,
    __init__ importable mixed scheme = (created, Ok self)
    /\ (managers self).*1 = root <$> scheme
    /\ (managers self).*2 = created
    /\ forall i man, created !! i = Some man -> oid man = i.
Proof.
  intros Hnodup Himp. rewrite (init_run mixed scheme Hnodup Himp).
  eexists _, _. split; [done|]. cbn [managers]. split_and!.
  - rewrite fmap_imap. rewrite <- imap_const. by apply imap_ext.
  - rewrite fmap_imap. by apply imap_ext.
  - intros i man Hman. rewrite list_lookup_imap in Hman.
    destruct (scheme !! i) as [spec|]; [|done]. injection Hman as <-.
    unfold instance.
    by destruct (setattrs_identity (Backend i (spec_class spec) []) (config spec))
      as [-> _].
Qed.

(** X15: when the class of an entry cannot be imported, [__init__] raises
    [ImportError] with the managers of the entries before it instantiated
    and none for the entries after it. *)
Theorem init_import_failure (mixed : string) (pre post : list MountSpec)
    (spec : MountSpec) :
  NoDup (root <$> pre ++ spec :: post) ->
  Forall (fun spec => importable (spec_class spec) = true) pre ->
  importable (spec_class spec) = false ->
  __init__ importable mixed (pre ++ spec :: post)
  = (imap instance pre, Raise (ImportError (spec_class spec))).
Proof.
  intros Hnodup Himp Hspec. unfold __init__.
  pose proof (proj2 (size_names_nodup _) Hnodup) as Hsize.
  rewrite length_fmap in Hsize. rewrite Hsize, Nat.eqb_refl. cbn [negb].
  rewrite fmap_app in Hnodup. apply NoDup_app in Hnodup as (Hpre & _ & _).
  rewrite (mount_all_prefix pre (spec :: post) [] [] Himp Hpre)
    by by apply Forall_forall.
  cbn [mount_all]. by rewrite Hspec.
Qed.

End MoreConstruction.


Lemma init_table_witness :
  exists self created,
    __init__ (fun _ => true) "mixed" scheme0 = (created, Ok self)
    /\ (managers self).*1 = ["space1"; "space2"]
    /\ (managers self).*2 = created
    /\ forall i man, created !! i = Some man -> oid man = i.
Proof.
  apply (init_table (fun _ => true) "mixed" scheme0).
  - apply (bool_decide_unpack _). vm_compute. exact I.
  - repeat constructor.
Defined.

Lemma init_import_failure_witness :
  __init__ (fun name => String.eqb name onedata) "mixed"
    (scheme0 ++ [ {| root := "s3"; spec_class := "s3contents.S3ContentsManager";
                     config := [] |};
                  {| root := "space3"; spec_class := onedata; config := [] |} ])
  = (imap instance scheme0, Raise (ImportError "s3contents.S3ContentsManager")).
Proof.
  apply (init_import_failure (fun name => String.eqb name onedata) "mixed" scheme0
           [ {| root := "space3"; spec_class := onedata; config := [] |} ]
           {| root := "s3"; spec_class := "s3contents.S3ContentsManager";
              config := [] |}).
  - apply (bool_decide_unpack _). vm_compute. exact I.
  - repeat constructor.
  - reflexivity.
Defined.


Lemma table_lookup {A} (g : nat -> MountSpec -> A) (scheme : list MountSpec) :
  forall i spec,
    NoDup (root <$> scheme) ->
    scheme !! i = Some spec ->
    dict_get (root spec) (imap (fun n s => (root s, g n s)) scheme) = Some (g i spec).
Proof.
  revert g. induction scheme as [|s scheme IH]; intros g i spec Hnodup Hi; [done|].
  rewrite fmap_cons in Hnodup. apply NoDup_cons in Hnodup as [Hfresh Hnodup].
  rewrite imap_cons. cbn [dict_get].
  destruct i as [|i]; cbn in Hi.
  - injection Hi as ->. by rewrite String.eqb_refl.
  - destruct (String.eqb_spec (root spec) (root s)) as [Heq|_].
    + destruct Hfresh. rewrite <- Heq. apply list_elem_of_fmap_2.
      by eapply list_elem_of_lookup_2.
    + by apply (IH (fun n => g (S n))).
Qed.

Section BuiltRouter.

Variable respond : call -> result value.
Variable importable : string -> bool.

(** X17: in a router built by [__init__] two mount names stand for two
    objects: [update] with the path under one mount and the model's path
    under another raises and calls nothing. *)
Theorem built_router_cross_mount (mixed : string) (scheme : list MountSpec)
    (i j : nat) (si sj : MountSpec) (path mp : string) (inner m_inner : list string)
    (fields : dict value) :
  NoDup (root <$> scheme) ->
  Forall (fun spec => importable (spec_class spec) = true) scheme ->
  scheme !! i = Some si ->
  scheme !! j = Some sj ->
  i <> j ->
  Str.split sep_char (Str.strip sep path) = mixed :: root si :: inner ->
  dict_get "path" fields = Some (VStr mp) ->
  Str.split sep_char (Str.strip sep mp) = mixed :: root sj :: m_inner ->
  exists self created,
    __init__ importable mixed scheme = (created, Ok self)
    /\ forall log, update respond self (VDict fields) path log
                   = (log, Raise (ValueError cross_mount_msg)).
Proof.
  intros Hnodup Himp Hi Hj Hij Hsplit Hmp Hmsplit.
  rewrite (init_run importable mixed scheme Hnodup Himp).
  eexists _, _. split; [done|]. intros log.
  assert (_split_path path = Some (mixed, root si :: inner, Str.strip sep path)) as Hsp.
  { unfold _split_path. by rewrite Hsplit. }
  assert (_split_path mp = Some (mixed, root sj :: m_inner, Str.strip sep mp)) as Hmsp.
  { unfold _split_path. by rewrite Hmsplit. }
  rewrite (update_unfold respond _ _ _ _ _ _ _ _ _ _ Hmp Hsp Hmsp). cbv zeta.
  unfold _get_cm. cbn [mixed_path managers]. rewrite String.eqb_refl. cbn [negb orb length Nat.eqb].
  rewrite (table_lookup instance scheme i si Hnodup Hi),
    (table_lookup instance scheme j sj Hnodup Hj).
  cbn [same_object].
  destruct (setattrs_identity (Backend i (spec_class si) []) (config si)) as [Hoi _].
  destruct (setattrs_identity (Backend j (spec_class sj) []) (config sj)) as [Hoj _].
  unfold instance. rewrite Hoi, Hoj. cbn [oid].
  by destruct (Nat.eqb_spec i j).
Qed.

End BuiltRouter.

Lemma built_router_cross_mount_witness :
  exists self created,
    __init__ (fun _ => true) "mixed" scheme0 = (created, Ok self)
    /\ forall log,
         update (answer_roots 1 (Ok VNone)) self
           (VDict [("path", VStr "mixed/space2/b.txt")]) "/mixed/space1/a.txt" log
         = (log, Raise (ValueError cross_mount_msg)).
Proof.
  apply (built_router_cross_mount (answer_roots 1 (Ok VNone)) (fun _ => true) "mixed"
           scheme0 0 1
           {| root := "space1"; spec_class := onedata;
              config := [("space", VStr "/space1")] |}
           {| root := "space2"; spec_class := onedata;
              config := [("space", VStr "/space2")] |}
           "/mixed/space1/a.txt" "mixed/space2/b.txt" ["a.txt"] ["b.txt"]
           [("path", VStr "mixed/space2/b.txt")]);
    first [reflexivity | discriminate | idtac].
  - apply (bool_decide_unpack _). vm_compute. exact I.
  - repeat constructor.
Defined.

(** ** More on the listing of the bare prefix *)

Lemma scan_outcome (better : value -> value -> option bool) (cur : value)
    (rest : list value) :
  (exists v, scan better cur rest = Ok v) \/ scan better cur rest = Raise TypeError.
Proof.
  revert cur. induction rest as [|item rest IH]; intros cur; [left; by eexists|].
  cbn. destruct (better cur item) as [[]|]; [apply IH..|by right].
Qed.

Lemma value_lt_none (a : value) : value_lt VNone a = None /\ value_lt a VNone = None.
Proof. by destruct a. Qed.

Lemma scan_none (better : value -> value -> option bool) (cur : value)
    (rest : list value) :
  (forall a, better VNone a = None /\ better a VNone = None) ->
  (cur = VNone /\ rest <> []) \/ VNone ∈ rest ->
  scan better cur rest = Raise TypeError.
Proof.
  intros Hnone. revert cur. induction rest as [|item rest IH]; intros cur Hin.
  - destruct Hin as [[_ ?]|Hin]; [done|]. by apply elem_of_nil in Hin.
  - cbn. destruct Hin as [[-> _]|Hin].
    + by rewrite (proj1 (Hnone item)).
    + apply elem_of_cons in Hin as [<-|Hin]; [by rewrite (proj2 (Hnone cur))|].
      destruct (better cur item) as [[]|]; [apply IH; by right..|done].
Qed.

Section MoreAggregate.

Variable respond : call -> result value.
Variable self : Self.
Variable kw : kwargs.

(** X18: [get] on the bare prefix raises the [ValueError] of [max] exactly
    when no fetched root bears a [last_modified], be it that every fetch
    raised or that the roots fetched have none. *)
Theorem bare_prefix_empty_iff (path : string) :
  Str.strip sep path = mixed_path self ->
  Str.strip sep path <> EmptyString ->
  outcome_of (get respond self path kw) = Raise (ValueError empty_max_msg)
  <-> timestamps respond self kw = [].
Proof.
  intros Hbare Hne. unfold outcome_of.
  rewrite (get_bare_prefix_run respond self kw path [] Hbare Hne). cbn [snd].
  split.
  - destruct (timestamps respond self kw) as [|t ts]; [done|].
    unfold py_max, py_min.
    destruct (scan_outcome (fun cur item => value_lt cur item) t ts)
      as [(newest & Hmax)|Hmax]; rewrite Hmax; [|done].
    cbn [mbind result_bind].
    destruct (scan_outcome (fun cur item => value_lt item cur) t ts)
      as [(oldest & Hmin)|Hmin]; by rewrite Hmin.
  - by intros ->.
Qed.

(** X19: with two or more fetched [last_modified], one of them [None], [get]
    on the bare prefix raises [TypeError]. *)
Theorem bare_prefix_none_timestamp (path : string) :
  Str.strip sep path = mixed_path self ->
  Str.strip sep path <> EmptyString ->
  VNone ∈ timestamps respond self kw ->
  (2 <= length (timestamps respond self kw))%nat ->
  outcome_of (get respond self path kw) = Raise TypeError.
Proof.
  intros Hbare Hne Hin Hlen. unfold outcome_of.
  rewrite (get_bare_prefix_run respond self kw path [] Hbare Hne). cbn [snd].
  destruct (timestamps respond self kw) as [|t ts]; [by apply elem_of_nil in Hin|].
  unfold py_max. rewrite scan_none; [done|intros a; apply value_lt_none|].
  apply elem_of_cons in Hin as [<-|Hin]; [|by right].
  left. split; [done|]. destruct ts; [cbn in Hlen; lia|done].
Qed.

End MoreAggregate.

Lemma bare_prefix_empty_iff_witness :
  outcome_of (get (fun _ => Ok (VDict [("name", VStr "")])) self0 "mixed" [])
  = Raise (ValueError empty_max_msg).
Proof.
  apply (bare_prefix_empty_iff (fun _ => Ok (VDict [("name", VStr "")])) self0 []
           "mixed"); [reflexivity|discriminate|reflexivity].
Defined.

Lemma bare_prefix_none_timestamp_witness :
  outcome_of (get (answer_roots 100 (Ok (VDict [("last_modified", VNone)]))) self0
                "mixed" [])
  = Raise TypeError.
Proof.
  apply (bare_prefix_none_timestamp
           (answer_roots 100 (Ok (VDict [("last_modified", VNone)]))) self0 [] "mixed");
    [reflexivity|discriminate| |].
  - vm_compute. right. left.
  - vm_compute. lia.
Defined.

(** ** Reaching a mount *)

(** X20: under a non-empty prefix without separator, the path joined from
    the prefix, a mount name and further segments, none holding a separator
    and the last non-empty, is routed to the manager mounted under that name,
    or to none when nothing is mounted under it. *)
Theorem resolve_joined (self : Self) (mount : string) (inner : list string) :
  mixed_path self <> EmptyString ->
  Forall (fun piece => has_sep piece = false) (mixed_path self :: mount :: inner) ->
  last (mount :: inner) <> Some EmptyString ->
  resolve self (Str.join sep (mixed_path self :: mount :: inner))
  = dict_get mount (managers self).
Proof.
  intros Hne Hclean Hlast. unfold resolve.
  rewrite split_path_joined by done.
  unfold _get_cm. by rewrite String.eqb_refl.
Qed.

Lemma resolve_joined_witness :
  resolve self0 (Str.join sep ["mixed"; "space2"; "a"; "b.txt"]) = Some space2
  /\ resolve self0 (Str.join sep ["mixed"; "space3"]) = None.
Proof.
  split.
  - apply (resolve_joined self0 "space2" ["a"; "b.txt"]);
      first [discriminate | repeat constructor].
  - apply (resolve_joined self0 "space3" []);
      first [discriminate | repeat constructor].
Defined.
